(** * Question answering with a pretrained BERT: the walkthrough notebook

    A shallow embedding of [questions-answering-bert-walktrhough.ipynb].
    The notebook is a straight line of calls into two libraries
    (transformers and torch): it loads a tokenizer and a model by name,
    encodes a (question, context) pair, runs one forward pass and prints
    the position of the largest start logit and of the largest end logit.

    Layout:
    - [Py]: the effects of the notebook, an exception or a value, with the
      lines printed so far;
    - [Torch]: the tensor operations the notebook calls;
    - [Transformers]: the interface of the library calls the notebook makes;
    - [Notebook]: the code cells, over any implementation of the interface;
    - [Pretrained]: the tokenizer and the scoring model as the specification
      describes them, and the answer reconstruction of its section 4.3;
    - [Sample]: the values recorded in the outputs of the notebook's cells;
    - the theorems. *)

From Stdlib Require Import List String Ascii ZArith QArith Lia Lqa Bool Arith.
Import ListNotations.

Local Open Scope string_scope.
Local Open Scope list_scope.

(** ** Exceptions, printed lines and the [Py] monad *)

(** The Python exceptions that the library calls of the notebook raise. *)
Inductive PyExn : Type :=
| IndexError (msg : string)
| RuntimeError (msg : string)
| OSError (msg : string).

Definition Result (A : Type) : Type := (PyExn + A)%type.

(** A tensor with a batch dimension and a sequence dimension, as
    [torch.LongTensor([input_ids])] builds it: a list of rows. *)
Definition Tensor (A : Type) : Type := list (list A).

(** A piece of a printed line: literal text of an f-string, or one of its
    fields.  Floating-point scores are kept as rationals. *)
Inductive Piece : Type :=
| Lit (s : string)
| Int (z : Z)
| Float (q : Q)
| Str (s : string)
| Repr (t : Tensor Q).

Definition Line : Type := list Piece.

(** A computation prints lines and then either raises or returns. *)
Definition Py (A : Type) : Type := list Line -> Result A * list Line.

Definition ret {A} (a : A) : Py A := fun out => (inr a, out).

Definition bind {A B} (m : Py A) (f : A -> Py B) : Py B :=
  fun out =>
    match m out with
    | (inl e, out') => (inl e, out')
    | (inr a, out') => f a out'
    end.

Definition lift {A} (r : Result A) : Py A := fun out => (r, out).

Definition print (l : Line) : Py unit := fun out => (inr tt, out ++ [l]).

Declare Scope py_scope.
Delimit Scope py_scope with py.
Notation "x <- m ;; k" := (bind m (fun x => k))
  (at level 61, m at next level, right associativity) : py_scope.
Notation "m ;; k" := (bind m (fun _ => k))
  (at level 61, right associativity) : py_scope.
Local Open Scope py_scope.

(** [for x in xs: body(x)] *)
Fixpoint for_each {A} (xs : list A) (body : A -> Py unit) : Py unit :=
  match xs with
  | [] => ret tt
  | x :: rest => body x ;; for_each rest body
  end.

(** ** The torch operations of the notebook *)

Module Torch.

(** [torch.LongTensor([ids])]: a batch of one row. *)
Definition LongTensor {A} (rows : list (list A)) : Tensor A := rows.

(** A reduction without a [dim] argument works on the flattened tensor. *)
Definition flatten {A} (t : Tensor A) : list A := List.concat t.

(** The scan behind [max] and [argmax]: [best] is the largest value seen,
    [besti] its position, [i] the position of the head of [l].  A later
    element replaces the best one only when it is strictly larger, so the
    first of several largest values wins. *)
Fixpoint scan_max (best : Q) (besti i : nat) (l : list Q) : Q * nat :=
  match l with
  | [] => (best, besti)
  | x :: rest =>
      match Qcompare x best with
      | Gt => scan_max x i (S i) rest
      | _ => scan_max best besti (S i) rest
      end
  end.

Definition empty_reduction : PyExn :=
  RuntimeError "Expected reduction dim to be specified for input.numel() == 0".

(** Modelled from the spec: torch's [Tensor.max()] without arguments, which
    is not in the repository; the largest value of the flattened tensor,
    an exception on a tensor without elements. *)
Definition max (t : Tensor Q) : Result Q :=
  match flatten t with
  | [] => inl empty_reduction
  | x :: rest => inr (fst (scan_max x 0 1 rest))
  end.

(** Modelled from the spec: torch's [Tensor.argmax()] without arguments,
    which is not in the repository; the index of the maximum value in the
    flattened tensor, an exception on a tensor without elements. *)
Definition argmax (t : Tensor Q) : Result nat :=
  match flatten t with
  | [] => inl empty_reduction
  | x :: rest => inr (snd (scan_max x 0 1 rest))
  end.

End Torch.

(** ** The interface of the transformers library *)

Module BatchEncoding.
(** The dictionary that [tokenizer(question, answer_text)] returns. *)
Record t : Type := mk {
  input_ids : list Z;
  token_type_ids : list Z;
  attention_mask : list Z
}.
End BatchEncoding.

Module QuestionAnsweringModelOutput.
(** The object that the model call returns; the notebook reads its
    [start_logits] and [end_logits]. *)
Record t : Type := mk {
  start_logits : Tensor Q;
  end_logits : Tensor Q
}.
End QuestionAnsweringModelOutput.

(** The calls the notebook makes into the library.  Each may raise.  The
    tokenizer and the model are loaded once and only read afterwards, so a
    call is a function of the object it is made on and of its arguments. *)
Class Transformers : Type := {
  BertTokenizer : Type;
  BertForQuestionAnswering : Type;
  BertTokenizer_from_pretrained : string -> Result BertTokenizer;
  BertForQuestionAnswering_from_pretrained :
    string -> Result BertForQuestionAnswering;
  num_parameters : BertForQuestionAnswering -> Z;
  (* tokenizer(text, text_pair) *)
  tokenizer_call : BertTokenizer -> string -> string -> Result BatchEncoding.t;
  (* tokenizer.encode(text, text_pair) *)
  tokenizer_encode : BertTokenizer -> string -> string -> Result (list Z);
  convert_ids_to_tokens : BertTokenizer -> list Z -> Result (list string);
  (* model(first, second): the two positional arguments of the notebook *)
  model_call :
    BertForQuestionAnswering -> Tensor Z -> Tensor Z ->
    Result QuestionAnsweringModelOutput.t
}.

(** ** The notebook *)

Module Notebook.

Definition BASE_MODEL : string :=
  "bert-large-uncased-whole-word-masking-finetuned-squad".

Definition question : string := "How many parameters does BERT-large have?".

Definition answer_text : string :=
  "BERT-large is really big... it has 24-layers and an embedding size of 1,024, for a total of 340M parameters! Altogether it is 1.34GB, so expect it to take a couple minutes to download to your Colab instance.".

Definition newline : string := String (ascii_of_nat 10) EmptyString.

(** The global names bound when the last cell has run. *)
Record Globals `{T : Transformers} : Type := mkGlobals {
  tokenizer : BertTokenizer;
  model : BertForQuestionAnswering;
  encoded_dict : BatchEncoding.t;
  input_ids : list Z;
  token_type_ids : list Z;
  attention_mask : list Z;
  tokens : list string;
  output : QuestionAnsweringModelOutput.t;
  start_logits : Tensor Q;
  end_logits : Tensor Q
}.

Section Cells.
Context `{T : Transformers}.

(** The cell that prints both logit tensors, their largest values and the
    positions of these.  Both pairs of lines carry the label "start", as
    in the source. *)
Definition report (start_logits end_logits : Tensor Q) : Py unit :=
  print [Lit "Start logits Tensor"] ;;
  print [Repr start_logits] ;;
  print [Lit newline] ;;
  m <- lift (Torch.max start_logits) ;;
  print [Lit "Max value for start position "; Float m] ;;
  i <- lift (Torch.argmax start_logits) ;;
  print [Lit "Max position value for start "; Int (Z.of_nat i)] ;;
  print [Lit newline] ;;
  print [Lit "End Logits Tensor"] ;;
  print [Repr end_logits] ;;
  print [Lit newline] ;;
  m <- lift (Torch.max end_logits) ;;
  print [Lit "Max value for start position "; Float m] ;;
  i <- lift (Torch.argmax end_logits) ;;
  print [Lit "Max position value for start "; Int (Z.of_nat i)].

(** All code cells in the order of the file, for a question and a context.
    [input_ids] is bound twice: first from [encoded_dict], then from
    [tokenizer.encode]; the second binding is the one the model receives.
    The two cells that only display a value ([model.num_parameters()] and
    [encoded_dict]) print no line. *)
Definition run (question answer_text : string) : Py Globals :=
  tokenizer <- lift (BertTokenizer_from_pretrained BASE_MODEL) ;;
  model <- lift (BertForQuestionAnswering_from_pretrained BASE_MODEL) ;;
  let _ := num_parameters model in
  encoded_dict <- lift (tokenizer_call tokenizer question answer_text) ;;
  let input_ids := BatchEncoding.input_ids encoded_dict in
  let token_type_ids := BatchEncoding.token_type_ids encoded_dict in
  let attention_mask := BatchEncoding.attention_mask encoded_dict in
  input_ids <- lift (tokenizer_encode tokenizer question answer_text) ;;
  print [Lit "There are "; Int (Z.of_nat (List.length input_ids));
         Lit " input ids for the question + context"] ;;
  tokens <- lift (convert_ids_to_tokens tokenizer input_ids) ;;
  for_each (combine input_ids tokens)
    (fun '(input_id, token) => print [Int input_id; Lit " >> "; Str token]) ;;
  output <- lift (model_call model (Torch.LongTensor [input_ids])
                                   (Torch.LongTensor [token_type_ids])) ;;
  let start_logits := QuestionAnsweringModelOutput.start_logits output in
  let end_logits := QuestionAnsweringModelOutput.end_logits output in
  report start_logits end_logits ;;
  ret (mkGlobals _ tokenizer model encoded_dict input_ids token_type_ids
         attention_mask tokens output start_logits end_logits).

(** The notebook as it stands, on its own question and context. *)
Definition notebook : Py Globals := run question answer_text.

End Cells.

End Notebook.

(** ** The pretrained tokenizer and scoring model *)

Module Pretrained.

(** The identifiers of the two special tokens, as the token listing of the
    notebook prints them: [101 >> [CLS]] and [102 >> [SEP]]. *)
Definition CLS : Z := 101.
Definition SEP : Z := 102.

(** The model's maximum position count. *)
Definition max_position_count : nat := 512.

(** What a tokenizer loaded by name holds: the sub-word splitting of a text
    against the fixed vocabulary, and the reverse mapping from identifier to
    token string.  Both are black boxes. *)
Record Tokenizer : Type := mkTokenizer {
  wordpiece : string -> list Z;
  id_to_token : Z -> string
}.

(** What a model loaded by name holds: the score pair (start, end) of one
    position of an input, and the number of weights. *)
Record Scorer : Type := mkScorer {
  score : list Z -> list Z -> nat -> Q * Q;
  parameters : Z
}.

(** Modelled from the spec: the token sequence built by the tokenizer of the
    transformers library, which is not in the repository:
    [[CLS] question_tokens [SEP] context_tokens [SEP]]. *)
Definition build_inputs (question_tokens context_tokens : list Z) : list Z :=
  [CLS] ++ question_tokens ++ [SEP] ++ context_tokens ++ [SEP].

(** Modelled from the spec: the segment mask built by the tokenizer of the
    transformers library, which is not in the repository: 0 for the question
    span including [[CLS]] and the first [[SEP]], 1 for the context span
    including the trailing [[SEP]]. *)
Definition segment_mask (question_tokens context_tokens : list Z) : list Z :=
  map (fun _ => 0%Z) ([CLS] ++ question_tokens ++ [SEP])
  ++ map (fun _ => 1%Z) (context_tokens ++ [SEP]).

(** Modelled from the spec: the attention mask returned by the tokenizer of
    the transformers library, which is not in the repository.  The spec
    names it without describing it; for one pair without padding the cell
    output of the notebook shows a 1 per token. *)
Definition ones_mask (ids : list Z) : list Z := map (fun _ => 1%Z) ids.

(** Modelled from the spec: [tokenizer(question, context)] of the
    transformers library, which is not in the repository: a pure mapping
    from the pair of strings to token ids, segment markers and attention
    mask; the input length is not checked here. *)
Definition encode_pair (tk : Tokenizer) (question context : string)
  : BatchEncoding.t :=
  let q := wordpiece tk question in
  let c := wordpiece tk context in
  BatchEncoding.mk (build_inputs q c) (segment_mask q c)
                   (ones_mask (build_inputs q c)).

(** Modelled from the spec: [tokenizer.encode(question, context)] of the
    transformers library, which is not in the repository: the token-id
    sequence [[CLS] question_tokens [SEP] context_tokens [SEP]]. *)
Definition encode (tk : Tokenizer) (question context : string) : list Z :=
  build_inputs (wordpiece tk question) (wordpiece tk context).

(** Modelled from the spec: the id to token-string reverse mapping of the
    tokenizer of the transformers library, which is not in the repository. *)
Definition ids_to_tokens (tk : Tokenizer) (ids : list Z) : list string :=
  map (id_to_token tk) ids.

Definition too_long : PyExn := IndexError "index out of range in self".

(** Modelled from the spec: one row of the forward pass of the pretrained
    scoring model of the transformers library, which is not in the
    repository: one pair of scores per token position, and a library error
    when the input exceeds the maximum position count. *)
Definition forward_row (m : Scorer) (ids segs : list Z)
  : Result (list (Q * Q)) :=
  if (max_position_count <? List.length ids)%nat then inl too_long
  else inr (map (score m ids segs) (seq 0 (List.length ids))).

(** The rows of a batch in turn; the first error stops the pass. *)
Fixpoint forward_rows (m : Scorer) (b : nat) (ids segs : Tensor Z)
  : Result (list (list (Q * Q))) :=
  match ids with
  | [] => inr []
  | row :: rest =>
      match forward_row m row (nth b segs []) with
      | inl e => inl e
      | inr r =>
          match forward_rows m (S b) rest segs with
          | inl e => inl e
          | inr rs => inr (r :: rs)
          end
      end
  end.

(** Modelled from the spec: the forward pass of the pretrained scoring model
    of the transformers library, which is not in the repository: given
    token ids and segment markers it returns the start scores and the end
    scores, aligned to the input. *)
Definition forward (m : Scorer) (ids segs : Tensor Z)
  : Result QuestionAnsweringModelOutput.t :=
  match forward_rows m 0 ids segs with
  | inl e => inl e
  | inr rows =>
      inr (QuestionAnsweringModelOutput.mk (map (map fst) rows)
                                           (map (map snd) rows))
  end.

Definition not_found (name : string) : PyExn :=
  OSError ("Can't load " ++ name)%string.

Definition load {A} (hub : string -> option A) (name : string) : Result A :=
  match hub name with
  | Some a => inr a
  | None => inl (not_found name)
  end.

(** The library as the specification describes it, over the tokenizers and
    the models that can be loaded by name. *)
Definition library (tokenizers : string -> option Tokenizer)
                   (models : string -> option Scorer) : Transformers :=
  {| BertTokenizer := Tokenizer;
     BertForQuestionAnswering := Scorer;
     BertTokenizer_from_pretrained := load tokenizers;
     BertForQuestionAnswering_from_pretrained := load models;
     num_parameters := parameters;
     tokenizer_call := fun tk q c => inr (encode_pair tk q c);
     tokenizer_encode := fun tk q c => inr (encode tk q c);
     convert_ids_to_tokens := fun tk ids => inr (ids_to_tokens tk ids);
     model_call := forward |}.

(** *** Answer reconstruction *)

(** A WordPiece continuation fragment starts with two hash signs. *)
Definition is_continuation (token : string) : bool := prefix "##" token.

Definition fragment (token : string) : string :=
  substring 2 (String.length token - 2) token.

(** The tokens between [start] and [stop] inclusive. *)
Definition span (tokens : list string) (start stop : nat) : list string :=
  firstn (S stop - start) (skipn start tokens).

(** Tokens separated by one space, a continuation fragment glued to the
    token before it. *)
Definition rejoin (toks : list string) : string :=
  match toks with
  | [] => ""
  | t :: rest =>
      fold_left (fun answer token =>
                   if is_continuation token
                   then (answer ++ fragment token)%string
                   else (answer ++ " " ++ token)%string)
                rest t
  end.

(** Modelled from the spec: the answer reconstruction of section 4.3, which
    no cell of the notebook implements: the sub-sequence of tokens between
    start and end inclusive, with WordPiece continuation fragments
    re-joined. *)
Definition reconstruct (tokens : list string) (start stop : nat) : string :=
  rejoin (span tokens start stop).

End Pretrained.

(** ** The values recorded in the cell outputs of the notebook *)

Module Sample.

Definition input_ids : list Z :=
 [101; 2129; 2116; 11709; 2515; 14324; 1011; 2312; 2031; 1029; 102; 14324;
   1011; 2312; 2003; 2428; 2502; 1012; 1012; 1012; 2009; 2038; 2484; 1011;
   9014; 1998; 2019; 7861; 8270; 4667; 2946; 1997; 1015; 1010; 6185; 2549;
   1010; 2005; 1037; 2561; 1997; 16029; 2213; 11709; 999; 10462; 2009;
   2003; 1015; 1012; 4090; 18259; 1010; 2061; 5987; 2009; 2000; 2202; 1037;
   3232; 2781; 2000; 8816; 2000; 2115; 15270; 2497; 6013; 1012; 102]%Z.

Definition token_type_ids : list Z :=
 [0; 0; 0; 0; 0; 0; 0; 0; 0; 0; 0; 1; 1; 1; 1; 1; 1; 1; 1; 1; 1; 1; 1; 1;
   1; 1; 1; 1; 1; 1; 1; 1; 1; 1; 1; 1; 1; 1; 1; 1; 1; 1; 1; 1; 1; 1; 1; 1;
   1; 1; 1; 1; 1; 1; 1; 1; 1; 1; 1; 1; 1; 1; 1; 1; 1; 1; 1; 1; 1; 1]%Z.

Definition attention_mask : list Z :=
 [1; 1; 1; 1; 1; 1; 1; 1; 1; 1; 1; 1; 1; 1; 1; 1; 1; 1; 1; 1; 1; 1; 1; 1;
   1; 1; 1; 1; 1; 1; 1; 1; 1; 1; 1; 1; 1; 1; 1; 1; 1; 1; 1; 1; 1; 1; 1; 1;
   1; 1; 1; 1; 1; 1; 1; 1; 1; 1; 1; 1; 1; 1; 1; 1; 1; 1; 1; 1; 1; 1]%Z.

Definition question_ids : list Z :=
 [2129; 2116; 11709; 2515; 14324; 1011; 2312; 2031; 1029]%Z.

Definition context_ids : list Z :=
 [14324; 1011; 2312; 2003; 2428; 2502; 1012; 1012; 1012; 2009; 2038; 2484;
   1011; 9014; 1998; 2019; 7861; 8270; 4667; 2946; 1997; 1015; 1010; 6185;
   2549; 1010; 2005; 1037; 2561; 1997; 16029; 2213; 11709; 999; 10462;
   2009; 2003; 1015; 1012; 4090; 18259; 1010; 2061; 5987; 2009; 2000; 2202;
   1037; 3232; 2781; 2000; 8816; 2000; 2115; 15270; 2497; 6013; 1012]%Z.

Definition printed_ids : list Z :=
 [101; 2129; 2116; 11709; 2515; 14324; 1011; 2312; 2031; 1029; 102; 14324;
   1011; 2312; 2003; 2428; 2502; 1012; 1012; 1012; 2009; 2038; 2484; 1011;
   9014; 1998; 2019; 7861; 8270; 4667; 2946; 1997; 1015; 1010; 6185; 2549;
   1010; 2005; 1037; 2561; 1997; 16029; 2213; 11709; 999; 10462; 2009;
   2003; 1015; 1012; 4090; 18259; 1010; 2061; 5987; 2009; 2000; 2202; 1037;
   3232; 2781; 2000; 8816; 2000; 2115; 15270; 2497; 6013; 1012; 102]%Z.

Definition tokens : list string :=
 ["[CLS]"; "how"; "many"; "parameters"; "does"; "bert"; "-"; "large";
   "have"; "?"; "[SEP]"; "bert"; "-"; "large"; "is"; "really"; "big"; ".";
   "."; "."; "it"; "has"; "24"; "-"; "layers"; "and"; "an"; "em"; "##bed";
   "##ding"; "size"; "of"; "1"; ","; "02"; "##4"; ","; "for"; "a"; "total";
   "of"; "340"; "##m"; "parameters"; "!"; "altogether"; "it"; "is"; "1";
   "."; "34"; "##gb"; ","; "so"; "expect"; "it"; "to"; "take"; "a";
   "couple"; "minutes"; "to"; "download"; "to"; "your"; "cola"; "##b";
   "instance"; "."; "[SEP]"].

Definition start_logits_row : list Q :=
 [(3870 # 10000); (3425 # 10000); (2221 # 10000); (-1389 # 10000);
   (-598 # 10000); (167 # 10000); (2192 # 10000); (-195 # 10000);
   (358 # 10000); (1572 # 10000); (2594 # 10000); (26 # 10000);
   (3877 # 10000); (2388 # 10000); (-2559 # 10000); (-2483 # 10000);
   (-1877 # 10000); (-95 # 10000); (1381 # 10000); (192 # 10000);
   (-996 # 10000); (-1723 # 10000); (-579 # 10000); (4340 # 10000);
   (2965 # 10000); (91 # 10000); (-136 # 10000); (-8 # 10000);
   (2370 # 10000); (1961 # 10000); (-3182 # 10000); (-174 # 10000);
   (-215 # 10000); (-2632 # 10000); (3457 # 10000); (-4221 # 10000);
   (2370 # 10000); (834 # 10000); (156 # 10000); (-4788 # 10000);
   (-394 # 10000); (-963 # 10000); (3294 # 10000); (-429 # 10000);
   (606 # 10000); (-20 # 10000); (-1711 # 10000); (-3001 # 10000);
   (-4400 # 10000); (-3295 # 10000); (-2250 # 10000); (-2735 # 10000);
   (2988 # 10000); (-1878 # 10000); (-589 # 10000); (-34 # 10000);
   (-199 # 10000); (-3540 # 10000); (-1299 # 10000); (-4777 # 10000);
   (-1572 # 10000); (-1968 # 10000); (-1163 # 10000); (2619 # 10000);
   (-1417 # 10000); (-2043 # 10000); (-156 # 10000); (-2806 # 10000);
   (3504 # 10000); (2129 # 10000)].

Definition end_logits_row : list Q :=
 [(2750 # 10000); (3025 # 10000); (1982 # 10000); (2804 # 10000);
   (134 # 10000); (1392 # 10000); (-3005 # 10000); (1847 # 10000);
   (2117 # 10000); (1993 # 10000); (-2266 # 10000); (-302 # 10000);
   (-1538 # 10000); (314 # 10000); (-2372 # 10000); (-445 # 10000);
   (2061 # 10000); (1308 # 10000); (390 # 10000); (2574 # 10000);
   (2415 # 10000); (-1638 # 10000); (1083 # 10000); (-361 # 10000);
   (451 # 10000); (-1178 # 10000); (372 # 10000); (-3832 # 10000);
   (-1898 # 10000); (1761 # 10000); (375 # 10000); (554 # 10000);
   (2993 # 10000); (-798 # 10000); (-2169 # 10000); (2698 # 10000);
   (-4066 # 10000); (2325 # 10000); (1174 # 10000); (3165 # 10000);
   (3443 # 10000); (3851 # 10000); (1287 # 10000); (2415 # 10000);
   (2915 # 10000); (-454 # 10000); (534 # 10000); (-2316 # 10000);
   (370 # 10000); (-2469 # 10000); (754 # 10000); (-5071 # 10000);
   (-3522 # 10000); (1184 # 10000); (84 # 10000); (403 # 10000);
   (1088 # 10000); (-4221 # 10000); (-1754 # 10000); (2822 # 10000);
   (-1701 # 10000); (318 # 10000); (644 # 10000); (2431 # 10000);
   (3674 # 10000); (-1204 # 10000); (1616 # 10000); (2142 # 10000);
   (-2207 # 10000); (-2640 # 10000)].

(** The logit tensors have a batch dimension of size one. *)
Definition start_logits : Tensor Q := [start_logits_row].
Definition end_logits : Tensor Q := [end_logits_row].

(** "Max position value for start 23" and "Max position value for start 41". *)
Definition start_position : nat := 23.
Definition end_position : nat := 41.

(** The output of [model.num_parameters()]. *)
Definition num_parameters : Z := 108893186.

(** The recorded dictionary of [tokenizer(question, answer_text)]. *)
Definition encoded_dict : BatchEncoding.t :=
  BatchEncoding.mk input_ids token_type_ids attention_mask.

End Sample.


(** ** Predicates and printed lines used in the statements *)

(** A computation raises from a given output state. *)
Definition raises {A} (m : Py A) (out : list Line) : Prop :=
  exists e, fst (m out) = inl e.

(** [i] is an index of the maximum value of [l]. *)
Definition is_argmax (l : list Q) (i : nat) : Prop :=
  exists m, nth_error l i = Some m /\ Forall (fun x => x <= m)%Q l.

(** No earlier position holds a value as large as the one at [i]. *)
Definition is_first (l : list Q) (i : nat) : Prop :=
  forall k x m, (k < i)%nat -> nth_error l k = Some x ->
                nth_error l i = Some m -> (x < m)%Q.

(** The lines of the reporting cell, given the two largest values and their
    positions. *)
Definition report_lines (start_logits end_logits : Tensor Q)
    (m1 : Q) (i : nat) (m2 : Q) (j : nat) : list Line :=
  [ [Lit "Start logits Tensor"];
    [Repr start_logits];
    [Lit Notebook.newline];
    [Lit "Max value for start position "; Float m1];
    [Lit "Max position value for start "; Int (Z.of_nat i)];
    [Lit Notebook.newline];
    [Lit "End Logits Tensor"];
    [Repr end_logits];
    [Lit Notebook.newline];
    [Lit "Max value for start position "; Float m2];
    [Lit "Max position value for start "; Int (Z.of_nat j)] ].

(** The line of the cell that counts the input ids and the lines of the
    loop that lists the tokens. *)
Definition token_lines (input_ids : list Z) (tokens : list string)
  : list Line :=
  [Lit "There are "; Int (Z.of_nat (List.length input_ids));
   Lit " input ids for the question + context"]
  :: map (fun '(input_id, token) => [Int input_id; Lit " >> "; Str token])
         (combine input_ids tokens).

(** An exception that a call into the libraries returned during a run on
    [q] and [c]. *)
Definition library_raises `{Transformers} (q c : string) (x : PyExn) : Prop :=
  BertTokenizer_from_pretrained Notebook.BASE_MODEL = inl x \/
  BertForQuestionAnswering_from_pretrained Notebook.BASE_MODEL = inl x \/
  (exists tk, tokenizer_call tk q c = inl x) \/
  (exists tk, tokenizer_encode tk q c = inl x) \/
  (exists tk ids, convert_ids_to_tokens tk ids = inl x) \/
  (exists m ids segs, model_call m [ids] [segs] = inl x) \/
  (exists t, Torch.max t = inl x).

(** ** Libraries to run the notebook on *)

(** A tokenizer and a model that replay the values recorded in the cell
    outputs of the notebook. *)
Module Recorded.

Definition wordpiece (text : string) : list Z :=
  if String.eqb text Notebook.question then Sample.question_ids
  else if String.eqb text Notebook.answer_text then Sample.context_ids
  else [].

Fixpoint lookup (table : list (Z * string)) (id : Z) : string :=
  match table with
  | [] => "[UNK]"
  | (k, v) :: rest => if Z.eqb k id then v else lookup rest id
  end.

Definition tokenizer : Pretrained.Tokenizer :=
  Pretrained.mkTokenizer wordpiece
    (lookup (combine Sample.printed_ids Sample.tokens)).

Definition score (ids segs : list Z) (i : nat) : Q * Q :=
  (nth i Sample.start_logits_row 0%Q, nth i Sample.end_logits_row 0%Q).

Definition scorer : Pretrained.Scorer :=
  Pretrained.mkScorer score Sample.num_parameters.

Definition hub {A} (a : A) (name : string) : option A :=
  if String.eqb name Notebook.BASE_MODEL then Some a else None.

Definition lib : Transformers := Pretrained.library (hub tokenizer) (hub scorer).

End Recorded.

(** A tokenizer that splits every text into 300 tokens, so that a pair has
    603 of them, and a model that scores inputs of any length. *)
Module LongInput.

Definition tokenizer : Pretrained.Tokenizer :=
  Pretrained.mkTokenizer (fun _ => repeat 1012%Z 300) (fun _ => ".").

Definition zeros (ids : Tensor Z) : Tensor Q := map (map (fun _ => 0%Q)) ids.

Definition lib : Transformers :=
  {| BertTokenizer := Pretrained.Tokenizer;
     BertForQuestionAnswering := unit;
     BertTokenizer_from_pretrained := fun _ => inr tokenizer;
     BertForQuestionAnswering_from_pretrained := fun _ => inr tt;
     num_parameters := fun _ => 0%Z;
     tokenizer_call := fun tk q c => inr (Pretrained.encode_pair tk q c);
     tokenizer_encode := fun tk q c => inr (Pretrained.encode tk q c);
     convert_ids_to_tokens :=
       fun tk ids => inr (Pretrained.ids_to_tokens tk ids);
     model_call :=
       fun _ ids _ =>
         inr (QuestionAnsweringModelOutput.mk (zeros ids) (zeros ids)) |}.

End LongInput.

(** A tokenizer whose two API paths differ: the dictionary holds three ids,
    [tokenizer.encode] returns four; the model scores inputs of any
    length. *)
Module DivergingPaths.

Definition dict : BatchEncoding.t :=
  BatchEncoding.mk [101; 102; 102]%Z [0; 0; 1]%Z [1; 1; 1]%Z.

Definition encoded_ids : list Z := [101; 2129; 102; 102]%Z.

Definition lib : Transformers :=
  {| BertTokenizer := unit;
     BertForQuestionAnswering := unit;
     BertTokenizer_from_pretrained := fun _ => inr tt;
     BertForQuestionAnswering_from_pretrained := fun _ => inr tt;
     num_parameters := fun _ => 0%Z;
     tokenizer_call := fun _ _ _ => inr dict;
     tokenizer_encode := fun _ _ _ => inr encoded_ids;
     convert_ids_to_tokens := fun _ ids => inr (map (fun _ => "[UNK]") ids);
     model_call :=
       fun _ ids _ =>
         inr (QuestionAnsweringModelOutput.mk (LongInput.zeros ids)
                                              (LongInput.zeros ids)) |}.

End DivergingPaths.

(** ** Two runs side by side *)

(** What a returned run holds, apart from the library objects: the ids and
    the segment mask given to the model, the tokens and the model output. *)
Definition observe `{T : Transformers} (g : Notebook.Globals)
  : list Z * list Z * list string * QuestionAnsweringModelOutput.t :=
  (Notebook.input_ids g, Notebook.token_type_ids g, Notebook.tokens g,
   Notebook.output g).

Definition outcome `{T : Transformers} (r : Result Notebook.Globals)
  : Result (list Z * list Z * list string * QuestionAnsweringModelOutput.t) :=
  match r with
  | inl x => inl x
  | inr g => inr (observe g)
  end.

(** A library that differs from [T] only in the dictionary that
    [tokenizer(question, answer_text)] returns, rewritten by [f]. *)
Definition override_dict (T : Transformers)
    (f : BatchEncoding.t -> BatchEncoding.t) : Transformers :=
  {| BertTokenizer := @BertTokenizer T;
     BertForQuestionAnswering := @BertForQuestionAnswering T;
     BertTokenizer_from_pretrained := @BertTokenizer_from_pretrained T;
     BertForQuestionAnswering_from_pretrained :=
       @BertForQuestionAnswering_from_pretrained T;
     num_parameters := @num_parameters T;
     tokenizer_call :=
       fun tk q c =>
         match @tokenizer_call T tk q c with
         | inl x => inl x
         | inr ed => inr (f ed)
         end;
     tokenizer_encode := @tokenizer_encode T;
     convert_ids_to_tokens := @convert_ids_to_tokens T;
     model_call := @model_call T |}.

(** The line that counts the input ids. *)
Definition count_line (input_ids : list Z) : Line :=
  [Lit "There are "; Int (Z.of_nat (List.length input_ids));
   Lit " input ids for the question + context"].

(** The lines of the reporting cell before [start_logits.max()]. *)
Definition start_header (start_logits : Tensor Q) : list Line :=
  [ [Lit "Start logits Tensor"]; [Repr start_logits]; [Lit Notebook.newline] ].

(** The lines of the reporting cell before [end_logits.max()]. *)
Definition end_header (start_logits end_logits : Tensor Q) (m1 : Q) (i : nat)
  : list Line :=
  start_header start_logits ++
  [ [Lit "Max value for start position "; Float m1];
    [Lit "Max position value for start "; Int (Z.of_nat i)];
    [Lit Notebook.newline];
    [Lit "End Logits Tensor"]; [Repr end_logits]; [Lit Notebook.newline] ].

(** * Properties *)

(** ** The [Py] monad *)

Section PyLaws.
Context {A B : Type}.

Lemma bind_lift (r : Result A) (f : A -> Py B) (out : list Line) :
  bind (lift r) f out =
  match r with inl e => (inl e, out) | inr a => f a out end.
Proof. unfold bind, lift. destruct r; reflexivity. Qed.

Lemma bind_print (l : Line) (f : unit -> Py B) (out : list Line) :
  bind (print l) f out = f tt (out ++ [l]).
Proof. reflexivity. Qed.

Lemma bind_ret (a : A) (f : A -> Py B) (out : list Line) :
  bind (ret a) f out = f a out.
Proof. reflexivity. Qed.

Lemma bind_ok (m : Py A) (f : A -> Py B) (out out' : list Line) (a : A) :
  m out = (inr a, out') -> bind m f out = f a out'.
Proof. intros H. unfold bind. rewrite H. reflexivity. Qed.

Lemma bind_raises (m : Py A) (f : A -> Py B) (out out' : list Line) e :
  m out = (inl e, out') -> bind m f out = (inl e, out').
Proof. intros H. unfold bind. rewrite H. reflexivity. Qed.

End PyLaws.

(** A loop whose body prints one line per element prints these lines in
    order and does not raise. *)
Lemma for_each_print {A} (f : A -> Line) (body : A -> Py unit)
    (xs : list A) (out : list Line) :
  (forall x, body x = print (f x)) ->
  for_each xs body out = (inr tt, out ++ map f xs).
Proof.
  intros Hbody. revert out. induction xs as [|x xs IH]; intros out; simpl.
  - unfold ret. now rewrite app_nil_r.
  - rewrite Hbody, bind_print, IH, <- app_assoc. reflexivity.
Qed.

(** ** The maximum scan *)

Module TorchFacts.
Import Torch.

Lemma Qcompare_not_Gt (x y : Q) : Qcompare x y <> Gt -> (x <= y)%Q.
Proof. intros H. now apply Qle_alt. Qed.

(** The invariant of the scan: [pre] is the part of the list already seen,
    [best] its largest value and [besti] the first position holding it. *)
Lemma scan_max_inv (l pre : list Q) (best : Q) (besti : nat) :
  nth_error pre besti = Some best ->
  Forall (fun x => x <= best)%Q pre ->
  (forall k x, (k < besti)%nat -> nth_error pre k = Some x -> (x < best)%Q) ->
  let r := scan_max best besti (List.length pre) l in
  nth_error (pre ++ l) (snd r) = Some (fst r) /\
  Forall (fun x => x <= fst r)%Q (pre ++ l) /\
  (forall k x, (k < snd r)%nat -> nth_error (pre ++ l) k = Some x ->
               (x < fst r)%Q).
Proof.
  revert pre best besti.
  induction l as [|x l IH]; intros pre best besti Hnth Hall Hfirst; simpl.
  - rewrite app_nil_r. auto.
  - assert (Hlen : List.length (pre ++ [x]) = S (List.length pre))
      by (rewrite length_app; simpl; lia).
    assert (Hbesti : (besti < List.length pre)%nat)
      by (apply nth_error_Some; congruence).
    replace (pre ++ x :: l) with ((pre ++ [x]) ++ l)
      by (rewrite <- app_assoc; reflexivity).
    destruct (Qcompare x best) eqn:Hc; rewrite <- Hlen.
    + (* equal: the earlier position stays *)
      apply IH.
      * rewrite nth_error_app1; assumption.
      * apply Forall_app; split; [assumption|].
        constructor; [|constructor]. apply Qcompare_not_Gt. congruence.
      * intros k y Hk Hy. apply (Hfirst k y Hk).
        rewrite nth_error_app1 in Hy; [assumption | lia].
    + apply IH.
      * rewrite nth_error_app1; assumption.
      * apply Forall_app; split; [assumption|].
        constructor; [|constructor]. apply Qcompare_not_Gt. congruence.
      * intros k y Hk Hy. apply (Hfirst k y Hk).
        rewrite nth_error_app1 in Hy; [assumption | lia].
    + (* strictly larger: the new position takes over *)
      apply Qgt_alt in Hc.
      apply IH.
      * rewrite nth_error_app2 by lia. now rewrite Nat.sub_diag.
      * apply Forall_app; split.
        -- eapply Forall_impl; [|exact Hall]. intros y Hy. simpl in Hy.
           apply Qle_trans with best; [assumption | now apply Qlt_le_weak].
        -- constructor; [apply Qle_refl | constructor].
      * intros k y Hk Hy. rewrite nth_error_app1 in Hy by assumption.
        assert (Hy' : (y <= best)%Q).
        { rewrite Forall_forall in Hall. apply Hall.
          eapply nth_error_In; eassumption. }
        apply Qle_lt_trans with best; assumption.
Qed.

(** On a tensor with an element, [argmax] returns a position of the
    flattened tensor that holds [max], the largest value, and it is the
    first such position. *)
Lemma argmax_spec (t : Tensor Q) :
  flatten t <> [] ->
  exists i m,
    argmax t = inr i /\ max t = inr m /\
    nth_error (flatten t) i = Some m /\
    Forall (fun x => x <= m)%Q (flatten t) /\
    is_first (flatten t) i.
Proof.
  intros Hne. unfold argmax, max.
  destruct (flatten t) as [|x rest]; [congruence|].
  destruct (scan_max_inv rest [x] x 0) as (H1 & H2 & H3).
  - reflexivity.
  - constructor; [apply Qle_refl | constructor].
  - intros k y Hk. lia.
  - simpl in *. eexists _, _. repeat split; try eassumption.
    intros k y m Hk Hy Hm. rewrite H1 in Hm. injection Hm as <-.
    now apply (H3 k).
Qed.

Lemma argmax_is_argmax (t : Tensor Q) (i : nat) :
  argmax t = inr i -> is_argmax (flatten t) i.
Proof.
  intros H.
  assert (Hne : flatten t <> []).
  { unfold argmax in H. destruct (flatten t); [discriminate | congruence]. }
  destruct (argmax_spec t Hne) as (i' & m & Hi & _ & Hn & Hall & _).
  rewrite H in Hi. injection Hi as <-. exists m. split; assumption.
Qed.

Lemma argmax_in_range (t : Tensor Q) (i : nat) :
  argmax t = inr i -> (i < List.length (flatten t))%nat.
Proof.
  intros H. destruct (argmax_is_argmax t i H) as (m & Hn & _).
  apply nth_error_Some. congruence.
Qed.

Lemma argmax_defined (t : Tensor Q) :
  flatten t <> [] -> exists i, argmax t = inr i.
Proof.
  intros H. destruct (argmax_spec t H) as (i & m & Hi & _). eauto.
Qed.

Lemma max_defined (t : Tensor Q) :
  flatten t <> [] -> exists m, max t = inr m.
Proof.
  intros H. destruct (argmax_spec t H) as (i & m & _ & Hm & _). eauto.
Qed.

Lemma argmax_empty (t : Tensor Q) :
  flatten t = [] -> argmax t = inl empty_reduction /\ max t = inl empty_reduction.
Proof. intros H. unfold argmax, max. rewrite H. split; reflexivity. Qed.

Lemma argmax_ok_nonempty (t : Tensor Q) (i : nat) :
  argmax t = inr i -> flatten t <> [].
Proof. unfold argmax. destruct (flatten t); [discriminate | congruence]. Qed.

Lemma max_ok_nonempty (t : Tensor Q) (m : Q) :
  max t = inr m -> flatten t <> [].
Proof. unfold max. destruct (flatten t); [discriminate | congruence]. Qed.

(** A batch of one row flattens to the row. *)
Lemma flatten_one_row {A} (row : list A) : flatten [row] = row.
Proof. unfold flatten. simpl. apply app_nil_r. Qed.

End TorchFacts.

(** ** What the cells print and return *)

Module NotebookFacts.
Import Notebook.

Ltac py_simpl :=
  repeat (rewrite ?bind_lift, ?bind_print, ?bind_ret, <- ?app_assoc; simpl).

(** The reporting cell on tensors that both have a largest element. *)
Lemma report_ok (s e : Tensor Q) (m1 m2 : Q) (i j : nat) (out : list Line) :
  Torch.max s = inr m1 -> Torch.argmax s = inr i ->
  Torch.max e = inr m2 -> Torch.argmax e = inr j ->
  report s e out = (inr tt, out ++ report_lines s e m1 i m2 j).
Proof.
  intros Hm1 Hi Hm2 Hj. unfold report.
  py_simpl. rewrite Hm1. py_simpl. rewrite Hi. py_simpl.
  rewrite Hm2. py_simpl. rewrite Hj. py_simpl.
  unfold print. rewrite <- app_assoc. reflexivity.
Qed.

(** The reporting cell returns only when both tensors have a largest
    element, and then it has printed [report_lines]. *)
Lemma report_inv (s e : Tensor Q) (out out' : list Line) :
  report s e out = (inr tt, out') ->
  exists m1 i m2 j,
    Torch.max s = inr m1 /\ Torch.argmax s = inr i /\
    Torch.max e = inr m2 /\ Torch.argmax e = inr j /\
    out' = out ++ report_lines s e m1 i m2 j.
Proof.
  unfold report. py_simpl.
  destruct (Torch.max s) as [x|m1] eqn:Hm1; [discriminate|]. py_simpl.
  destruct (Torch.argmax s) as [x|i] eqn:Hi; [discriminate|]. py_simpl.
  destruct (Torch.max e) as [x|m2] eqn:Hm2; [discriminate|]. py_simpl.
  destruct (Torch.argmax e) as [x|j] eqn:Hj; [discriminate|]. py_simpl.
  unfold print. rewrite <- app_assoc. simpl. intros H.
  exists m1, i, m2, j. repeat split. now inversion H.
Qed.

(** Every exception of the reporting cell is the one torch raises when it
    reduces a tensor without elements. *)
Lemma report_raises (s e : Tensor Q) (out : list Line) (x : PyExn) :
  fst (report s e out) = inl x ->
  (Torch.flatten s = [] \/ Torch.flatten e = [])
  /\ x = Torch.empty_reduction.
Proof.
  unfold report. py_simpl.
  unfold Torch.max, Torch.argmax.
  destruct (Torch.flatten s) as [|a r]; simpl.
  - intros H. injection H as <-. auto.
  - py_simpl. destruct (Torch.flatten e) as [|b r']; simpl.
    + intros H. injection H as <-. auto.
    + py_simpl. unfold print. simpl. discriminate.
Qed.

Section Run.
Context `{T : Transformers}.

(** A run that returns: every library call returned, the model was called
    on the ids of [tokenizer.encode] and on the segment mask of
    [encoded_dict], and the output ends with the reporting cell's lines. *)
Lemma run_inv (q c : string) (out out' : list Line) (g : Globals) :
  run q c out = (inr g, out') ->
  BertTokenizer_from_pretrained BASE_MODEL = inr (tokenizer g) /\
  BertForQuestionAnswering_from_pretrained BASE_MODEL = inr (model g) /\
  tokenizer_call (tokenizer g) q c = inr (encoded_dict g) /\
  tokenizer_encode (tokenizer g) q c = inr (input_ids g) /\
  token_type_ids g = BatchEncoding.token_type_ids (encoded_dict g) /\
  attention_mask g = BatchEncoding.attention_mask (encoded_dict g) /\
  convert_ids_to_tokens (tokenizer g) (input_ids g) = inr (tokens g) /\
  model_call (model g) [input_ids g] [token_type_ids g] = inr (output g) /\
  start_logits g = QuestionAnsweringModelOutput.start_logits (output g) /\
  end_logits g = QuestionAnsweringModelOutput.end_logits (output g) /\
  exists m1 i m2 j,
    Torch.max (start_logits g) = inr m1 /\
    Torch.argmax (start_logits g) = inr i /\
    Torch.max (end_logits g) = inr m2 /\
    Torch.argmax (end_logits g) = inr j /\
    out' = out ++ token_lines (input_ids g) (tokens g)
               ++ report_lines (start_logits g) (end_logits g) m1 i m2 j.
Proof.
  unfold run. py_simpl.
  destruct (BertTokenizer_from_pretrained BASE_MODEL) as [x|tk] eqn:Htk;
    [discriminate|].
  py_simpl.
  destruct (BertForQuestionAnswering_from_pretrained BASE_MODEL)
    as [x|m] eqn:Hm; [discriminate|].
  py_simpl.
  destruct (tokenizer_call tk q c) as [x|ed] eqn:Hed; [discriminate|].
  py_simpl.
  destruct (tokenizer_encode tk q c) as [x|ids] eqn:Hids; [discriminate|].
  py_simpl.
  destruct (convert_ids_to_tokens tk ids) as [x|toks] eqn:Htoks;
    [discriminate|].
  py_simpl.
  unfold bind at 1.
  rewrite (for_each_print
             (fun '(input_id, token) => [Int input_id; Lit " >> "; Str token]))
    by (intros [? ?]; reflexivity).
  unfold Torch.LongTensor.
  py_simpl.
  destruct (model_call m [ids] [BatchEncoding.token_type_ids ed])
    as [x|o] eqn:Ho; [discriminate|].
  unfold bind at 1.
  destruct (report _ _ _) as [[x|[]] out1] eqn:Hrep; [discriminate|].
  unfold ret. intros H. inversion H; subst; clear H. simpl.
  apply report_inv in Hrep. destruct Hrep as (m1 & i & m2 & j & Hrep).
  repeat (split; [assumption || reflexivity|]).
  exists m1, i, m2, j.
  destruct Hrep as (? & ? & ? & ? & ->).
  repeat (split; [assumption|]).
  unfold token_lines. simpl. rewrite <- app_assoc. reflexivity.
Qed.

(** The state of the output when the model is called. *)
Lemma run_until_forward (q c : string) (out : list Line)
    tk m ed ids toks :
  BertTokenizer_from_pretrained BASE_MODEL = inr tk ->
  BertForQuestionAnswering_from_pretrained BASE_MODEL = inr m ->
  tokenizer_call tk q c = inr ed ->
  tokenizer_encode tk q c = inr ids ->
  convert_ids_to_tokens tk ids = inr toks ->
  run q c out =
  match model_call m [ids] [BatchEncoding.token_type_ids ed] with
  | inl x => (inl x, out ++ token_lines ids toks)
  | inr o =>
      let s := QuestionAnsweringModelOutput.start_logits o in
      let e := QuestionAnsweringModelOutput.end_logits o in
      match report s e (out ++ token_lines ids toks) with
      | (inl x, out') => (inl x, out')
      | (inr _, out') =>
          (inr (mkGlobals _ tk m ed ids (BatchEncoding.token_type_ids ed)
                  (BatchEncoding.attention_mask ed) toks o s e), out')
      end
  end.
Proof.
  intros Htk Hm Hed Hids Htoks. unfold run. py_simpl.
  rewrite Htk. py_simpl. rewrite Hm. py_simpl. rewrite Hed. py_simpl.
  rewrite Hids. py_simpl. rewrite Htoks. py_simpl.
  unfold bind at 1.
  rewrite (for_each_print
             (fun '(input_id, token) => [Int input_id; Lit " >> "; Str token]))
    by (intros [? ?]; reflexivity).
  unfold Torch.LongTensor. py_simpl.
  unfold token_lines.
  destruct (model_call m [ids] [BatchEncoding.token_type_ids ed]) as [x|o];
    [reflexivity|].
  unfold bind at 1. simpl.
  destruct (report _ _ _) as [[x|u] out1]; reflexivity.
Qed.

End Run.

End NotebookFacts.

(** ** The tokenizer and the scoring model *)

Module PretrainedFacts.
Import Pretrained.

Lemma map_const_repeat {A B} (b : B) (l : list A) :
  map (fun _ => b) l = repeat b (List.length l).
Proof. induction l as [|a l IH]; simpl; [reflexivity | now rewrite IH]. Qed.

Lemma build_inputs_length (q c : list Z) :
  List.length (build_inputs q c) = (List.length q + List.length c + 3)%nat.
Proof.
  unfold build_inputs. repeat (rewrite length_app; simpl). lia.
Qed.

Lemma segment_mask_runs (q c : list Z) :
  segment_mask q c =
  repeat 0%Z (2 + List.length q) ++ repeat 1%Z (1 + List.length c).
Proof.
  unfold segment_mask. rewrite !map_const_repeat.
  f_equal; f_equal; simpl; rewrite length_app; simpl; lia.
Qed.

Lemma segment_mask_length (q c : list Z) :
  List.length (segment_mask q c) = List.length (build_inputs q c).
Proof.
  rewrite segment_mask_runs, build_inputs_length, length_app, !repeat_length.
  lia.
Qed.

(** The question span and the context span of the token sequence. *)
Lemma build_inputs_split (q c : list Z) :
  firstn (2 + List.length q) (build_inputs q c) = [CLS] ++ q ++ [SEP] /\
  skipn (2 + List.length q) (build_inputs q c) = c ++ [SEP].
Proof.
  assert (H : build_inputs q c = ([CLS] ++ q ++ [SEP]) ++ (c ++ [SEP])).
  { unfold build_inputs. simpl. now rewrite <- app_assoc. }
  assert (L : List.length ([CLS] ++ q ++ [SEP]) = (2 + List.length q)%nat).
  { simpl. rewrite length_app. simpl. lia. }
  rewrite H, <- L. split.
  - rewrite firstn_app, Nat.sub_diag, firstn_all. simpl. now rewrite app_nil_r.
  - rewrite skipn_app, Nat.sub_diag, skipn_all. reflexivity.
Qed.

(** Both API paths of the tokenizer build the same token sequence. *)
Lemma encode_is_input_ids (tk : Tokenizer) (q c : string) :
  encode tk q c = BatchEncoding.input_ids (encode_pair tk q c).
Proof. reflexivity. Qed.

Lemma encode_length (tk : Tokenizer) (q c : string) :
  (3 <= List.length (encode tk q c))%nat.
Proof. unfold encode. rewrite build_inputs_length. lia. Qed.

Lemma ids_to_tokens_length (tk : Tokenizer) (ids : list Z) :
  List.length (ids_to_tokens tk ids) = List.length ids.
Proof. apply length_map. Qed.

(** *** The forward pass *)

Lemma forward_row_ok (m : Scorer) (ids segs : list Z) :
  (List.length ids <= max_position_count)%nat ->
  forward_row m ids segs =
  inr (map (score m ids segs) (seq 0 (List.length ids))).
Proof.
  intros H. unfold forward_row.
  destruct (Nat.ltb_spec max_position_count (List.length ids));
    [lia | reflexivity].
Qed.

Lemma forward_row_too_long (m : Scorer) (ids segs : list Z) :
  (max_position_count < List.length ids)%nat ->
  forward_row m ids segs = inl too_long.
Proof.
  intros H. unfold forward_row.
  destruct (Nat.ltb_spec max_position_count (List.length ids));
    [reflexivity | lia].
Qed.

Lemma forward_row_length (m : Scorer) (ids segs : list Z) r :
  forward_row m ids segs = inr r -> List.length r = List.length ids.
Proof.
  unfold forward_row.
  destruct (max_position_count <? List.length ids)%nat; [discriminate|].
  intros H. injection H as <-. now rewrite length_map, length_seq.
Qed.

Lemma forward_rows_lengths (m : Scorer) (ids segs : Tensor Z) :
  forall b rows,
    forward_rows m b ids segs = inr rows ->
    map (@List.length _) rows = map (@List.length _) ids.
Proof.
  induction ids as [|row rest IH]; intros b rows; simpl.
  - intros H. injection H as <-. reflexivity.
  - destruct (forward_row m row (nth b segs [])) as [x|r] eqn:Hr;
      [discriminate|].
    destruct (forward_rows m (S b) rest segs) as [x|rs] eqn:Hrs;
      [discriminate|].
    intros H. injection H as <-. simpl.
    rewrite (forward_row_length _ _ _ _ Hr), (IH _ _ Hrs). reflexivity.
Qed.

Lemma forward_rows_total (m : Scorer) (ids segs : Tensor Z) :
  Forall (fun row => List.length row <= max_position_count)%nat ids ->
  forall b, exists rows, forward_rows m b ids segs = inr rows.
Proof.
  induction 1 as [|row rest Hrow _ IH]; intros b; simpl.
  - eauto.
  - rewrite (forward_row_ok _ _ _ Hrow).
    destruct (IH (S b)) as [rs ->]. eauto.
Qed.

Lemma forward_rows_too_long (m : Scorer) (ids segs : Tensor Z) :
  Exists (fun row => max_position_count < List.length row)%nat ids ->
  forall b, forward_rows m b ids segs = inl too_long.
Proof.
  induction 1 as [row rest Hrow | row rest _ IH]; intros b; simpl.
  - now rewrite (forward_row_too_long _ _ _ Hrow).
  - destruct (forward_row m row (nth b segs [])) as [x|r] eqn:Hr.
    + unfold forward_row in Hr.
      destruct (max_position_count <? List.length row)%nat;
        [congruence | discriminate].
    + now rewrite IH.
Qed.

(** The forward pass on the batch of one row that the notebook builds. *)
Lemma forward_one_row (m : Scorer) (ids segs : list Z) :
  (List.length ids <= max_position_count)%nat ->
  forward m [ids] [segs] =
  inr (QuestionAnsweringModelOutput.mk
         [map fst (map (score m ids segs) (seq 0 (List.length ids)))]
         [map snd (map (score m ids segs) (seq 0 (List.length ids)))]).
Proof.
  intros H. unfold forward. simpl. now rewrite (forward_row_ok _ _ _ H).
Qed.

End PretrainedFacts.

(** ** The recorded sample *)

Module SampleFacts.

(** The ids printed by the token loop, which come from [tokenizer.encode],
    are the ids recorded for [tokenizer(question, answer_text)]. *)
Lemma printed_ids_are_input_ids : Sample.printed_ids = Sample.input_ids.
Proof. reflexivity. Qed.

Lemma sample_lengths :
  List.length Sample.input_ids = 70%nat /\
  List.length Sample.token_type_ids = 70%nat /\
  List.length Sample.attention_mask = 70%nat /\
  List.length Sample.tokens = 70%nat /\
  List.length Sample.start_logits_row = 70%nat /\
  List.length Sample.end_logits_row = 70%nat.
Proof. repeat split; reflexivity. Qed.

(** The recorded positions are the positions of the largest recorded
    logits. *)
Lemma sample_positions :
  Torch.argmax Sample.start_logits = inr Sample.start_position /\
  Torch.argmax Sample.end_logits = inr Sample.end_position.
Proof. split; vm_compute; reflexivity. Qed.

(** The tokenizer of the specification, on the sub-word ids of the sample,
    builds the recorded dictionary. *)
Lemma sample_encoded_dict (tk : Pretrained.Tokenizer) :
  Pretrained.wordpiece tk Notebook.question = Sample.question_ids ->
  Pretrained.wordpiece tk Notebook.answer_text = Sample.context_ids ->
  Pretrained.encode_pair tk Notebook.question Notebook.answer_text
  = Sample.encoded_dict.
Proof.
  intros Hq Hc. unfold Pretrained.encode_pair. rewrite Hq, Hc. reflexivity.
Qed.

(** The notebook on the replayed library returns, with the recorded ids,
    masks and tokens. *)
Lemma recorded_run :
  exists g out,
    Notebook.notebook (T := Recorded.lib) [] = (inr g, out) /\
    Notebook.encoded_dict g = Sample.encoded_dict /\
    Notebook.input_ids g = Sample.input_ids /\
    Notebook.tokens g = Sample.tokens /\
    Notebook.start_logits g = Sample.start_logits /\
    Notebook.end_logits g = Sample.end_logits /\
    List.length out = 82%nat.
Proof.
  eexists _, _. split; [vm_compute; reflexivity|].
  repeat split; vm_compute; reflexivity.
Qed.

End SampleFacts.

(** * The claims *)

Import Notebook.

(** ** Answer extraction *)

(** C1.  Answer extraction takes the start position as the index of the
    maximum value of the start logits and the end position as the index of
    the maximum value of the end logits.  Whenever a run of the notebook
    returns, the two positions it has printed are the argmax of the start
    logits and the argmax of the end logits that the forward pass returned;
    on every pair of tensors with an element the reporting cell prints the
    two positions, each computed from its own tensor over all of it; and no
    order between start and end is enforced: there are logits for which the
    printed end position is before the printed start position. *)
Theorem extraction_is_independent_argmax :
  (forall (T : Transformers) (q c : string) (out out' : list Line)
          (g : Globals),
      run q c out = (inr g, out') ->
      model_call (model g) [input_ids g] [token_type_ids g]
        = inr (output g) /\
      exists m1 i m2 j,
        Torch.argmax (QuestionAnsweringModelOutput.start_logits (output g))
          = inr i /\
        Torch.argmax (QuestionAnsweringModelOutput.end_logits (output g))
          = inr j /\
        is_argmax (Torch.flatten (start_logits g)) i /\
        is_argmax (Torch.flatten (end_logits g)) j /\
        out' = out ++ token_lines (input_ids g) (tokens g)
                   ++ report_lines (start_logits g) (end_logits g) m1 i m2 j)
  /\
  (forall (s e : Tensor Q) (out : list Line),
      Torch.flatten s <> [] -> Torch.flatten e <> [] ->
      exists m1 i m2 j,
        Torch.argmax s = inr i /\ Torch.argmax e = inr j /\
        is_argmax (Torch.flatten s) i /\ is_first (Torch.flatten s) i /\
        is_argmax (Torch.flatten e) j /\ is_first (Torch.flatten e) j /\
        report s e out = (inr tt, out ++ report_lines s e m1 i m2 j))
  /\
  (exists (s e : Tensor Q) m1 i m2 j,
      report s e [] = (inr tt, report_lines s e m1 i m2 j) /\ (j < i)%nat).
Proof.
  split; [|split].
  - intros T q c out out' g Hrun.
    destruct (NotebookFacts.run_inv q c out out' g Hrun)
      as (_ & _ & _ & _ & _ & _ & _ & Hcall & Hs & He & m1 & i & m2 & j
          & _ & Hi & _ & Hj & Hout).
    split; [assumption|].
    exists m1, i, m2, j. rewrite <- Hs, <- He.
    repeat split; try assumption; now apply TorchFacts.argmax_is_argmax.
  - intros s e out Hs He.
    destruct (TorchFacts.argmax_spec s Hs) as (i & m1 & Hi & Hm1 & Hn1 & Ha1 & Hf1).
    destruct (TorchFacts.argmax_spec e He) as (j & m2 & Hj & Hm2 & Hn2 & Ha2 & Hf2).
    exists m1, i, m2, j.
    repeat split; try assumption.
    + exists m1; split; assumption.
    + exists m2; split; assumption.
    + now apply NotebookFacts.report_ok.
  - exists [[0; 1]]%Q, [[1; 0]]%Q, 1%Q, 1%nat, 1%Q, 0%nat.
    split; [reflexivity | lia].
Qed.

(** The run on the replayed library prints the recorded positions 23 and
    41, each the argmax of its recorded tensor. *)
Lemma extraction_is_independent_argmax_witness :
  exists g out m1 m2,
    notebook (T := Recorded.lib) [] = (inr g, out) /\
    is_argmax (Torch.flatten (start_logits g)) 23 /\
    is_argmax (Torch.flatten (end_logits g)) 41 /\
    out = token_lines (input_ids g) (tokens g)
          ++ report_lines (start_logits g) (end_logits g) m1 23 m2 41.
Proof.
  destruct (SampleFacts.recorded_run) as (g & out & Hrun & _ & _ & _ & Hs & He & _).
  destruct extraction_is_independent_argmax as (Hclaim & _).
  destruct (Hclaim Recorded.lib question answer_text [] out g Hrun)
    as (_ & m1 & i & m2 & j & Hi & Hj & Hai & Haj & Hout).
  destruct (NotebookFacts.run_inv _ _ _ _ _ Hrun)
    as (_ & _ & _ & _ & _ & _ & _ & _ & Hso & Heo & _).
  rewrite <- Hso, Hs in Hi. rewrite <- Heo, He in Hj.
  assert (i = 23%nat) as -> by (vm_compute in Hi; congruence).
  assert (j = 41%nat) as -> by (vm_compute in Hj; congruence).
  exists g, out, m1, m2. repeat split; assumption.
Defined.

(** C2 as stated fails: the tokens from index 23 to index 41 of the sample
    do not spell the text of the claim. *)
Lemma reconstruct_sample_differs :
  Pretrained.reconstruct Sample.tokens Sample.start_position
                         Sample.end_position
  <> "24 - layers and an embedding size of 1 , 024".
Proof. vm_compute. discriminate. Qed.

(** C2, amended.  Over the token sequence recorded for the sample pair, with
    the recorded start index 23 and end index 41 (the argmax of the recorded
    start and end logits), the tokens from index 23 to 41 inclusive with
    WordPiece continuation fragments rejoined spell
    "- layers and an embedding size of 1 , 024 , for a total of 340";
    the text "24 - layers and an embedding size of 1 , 024" is the span
    from index 22 to index 35. *)
Theorem reconstruct_sample :
  Torch.argmax Sample.start_logits = inr 23%nat /\
  Torch.argmax Sample.end_logits = inr 41%nat /\
  Pretrained.reconstruct Sample.tokens 23 41
  = "- layers and an embedding size of 1 , 024 , for a total of 340" /\
  Pretrained.reconstruct Sample.tokens 22 35
  = "24 - layers and an embedding size of 1 , 024".
Proof. repeat split; vm_compute; reflexivity. Qed.

(** C3 as stated fails: on start logits [0, 1] and end logits [1, 0] the
    end position 0 is before the start position 1, and the reporting cell
    prints both and raises nothing. *)
Lemma reversed_span_not_reported :
  ~ (forall (s e : Tensor Q) (i j : nat) (out : list Line),
        Torch.argmax s = inr i -> Torch.argmax e = inr j -> (j < i)%nat ->
        raises (report s e) out).
Proof.
  intros H.
  destruct (H [[0; 1]]%Q [[1; 0]]%Q 1%nat 0%nat []) as [x Hx];
    [reflexivity | reflexivity | lia |].
  vm_compute in Hx. discriminate.
Qed.

(** C3, amended.  For every pair of resolved indices with the end index
    strictly less than the start index, answer extraction raises no error:
    the reporting cell returns and has printed both indices as they are. *)
Theorem reversed_span_is_printed (s e : Tensor Q) (i j : nat)
    (out : list Line) :
  Torch.argmax s = inr i -> Torch.argmax e = inr j -> (j < i)%nat ->
  ~ raises (report s e) out /\
  exists m1 m2,
    report s e out = (inr tt, out ++ report_lines s e m1 i m2 j).
Proof.
  intros Hi Hj _.
  destruct (TorchFacts.max_defined s (TorchFacts.argmax_ok_nonempty s i Hi))
    as [m1 Hm1].
  destruct (TorchFacts.max_defined e (TorchFacts.argmax_ok_nonempty e j Hj))
    as [m2 Hm2].
  pose proof (NotebookFacts.report_ok s e m1 m2 i j out Hm1 Hi Hm2 Hj) as Hr.
  split.
  - intros [x Hx]. rewrite Hr in Hx. discriminate.
  - exists m1, m2. exact Hr.
Qed.

Lemma reversed_span_is_printed_witness :
  ~ raises (report [[0; 1]]%Q [[1; 0]]%Q) [] /\
  exists m1 m2,
    report [[0; 1]]%Q [[1; 0]]%Q []
    = (inr tt, [] ++ report_lines [[0; 1]]%Q [[1; 0]]%Q m1 1 m2 0).
Proof.
  apply (reversed_span_is_printed [[0; 1]]%Q [[1; 0]]%Q 1 0 []);
    [reflexivity | reflexivity | lia].
Defined.

(** ** Runs of the whole notebook *)

Section RunFacts.
Context `{T : Transformers}.

(** Every exception of a run was returned by a call into the libraries. *)
Lemma run_raises_from_library (q c : string) (out : list Line) (x : PyExn) :
  fst (run q c out) = inl x -> library_raises q c x.
Proof.
  unfold library_raises.
  destruct (BertTokenizer_from_pretrained BASE_MODEL) as [x0|tk] eqn:Htk.
  { unfold run. NotebookFacts.py_simpl. rewrite Htk. simpl.
    intros H. injection H as <-. auto. }
  destruct (BertForQuestionAnswering_from_pretrained BASE_MODEL)
    as [x0|m] eqn:Hm.
  { unfold run. NotebookFacts.py_simpl. rewrite Htk.
    NotebookFacts.py_simpl. rewrite Hm. simpl.
    intros H. injection H as <-. auto. }
  destruct (tokenizer_call tk q c) as [x0|ed] eqn:Hed.
  { unfold run. NotebookFacts.py_simpl. rewrite Htk.
    NotebookFacts.py_simpl. rewrite Hm. NotebookFacts.py_simpl.
    rewrite Hed. simpl. intros H. injection H as <-. eauto 6. }
  destruct (tokenizer_encode tk q c) as [x0|ids] eqn:Hids.
  { unfold run. NotebookFacts.py_simpl. rewrite Htk.
    NotebookFacts.py_simpl. rewrite Hm. NotebookFacts.py_simpl.
    rewrite Hed. NotebookFacts.py_simpl. rewrite Hids. simpl.
    intros H. injection H as <-. eauto 7. }
  destruct (convert_ids_to_tokens tk ids) as [x0|toks] eqn:Htoks.
  { unfold run. NotebookFacts.py_simpl. rewrite Htk.
    NotebookFacts.py_simpl. rewrite Hm. NotebookFacts.py_simpl.
    rewrite Hed. NotebookFacts.py_simpl. rewrite Hids.
    NotebookFacts.py_simpl. rewrite Htoks. simpl.
    intros H. injection H as <-. eauto 8. }
  rewrite (NotebookFacts.run_until_forward q c _ tk m ed ids toks)
    by assumption.
  destruct (model_call m [ids] [BatchEncoding.token_type_ids ed])
    as [x0|o] eqn:Ho.
  { simpl. intros H. injection H as <-. eauto 10. }
  cbv zeta.
  destruct (report _ _ _) as [[x0|u] out1] eqn:Hrep; [|discriminate].
  simpl. intros H. injection H as <-.
  assert (Hx : fst (report (QuestionAnsweringModelOutput.start_logits o)
                           (QuestionAnsweringModelOutput.end_logits o)
                           (out ++ token_lines ids toks)) = inl x0)
    by (rewrite Hrep; reflexivity).
  apply NotebookFacts.report_raises in Hx. destruct Hx as [[Hs|He] ->].
  - do 6 right. eexists. apply (TorchFacts.argmax_empty _ Hs).
  - do 6 right. eexists. apply (TorchFacts.argmax_empty _ He).
Qed.

(** A run whose library calls all return, on logits with an element,
    returns. *)
Lemma run_ok (q c : string) (out : list Line) tk m ed ids toks o :
  BertTokenizer_from_pretrained BASE_MODEL = inr tk ->
  BertForQuestionAnswering_from_pretrained BASE_MODEL = inr m ->
  tokenizer_call tk q c = inr ed ->
  tokenizer_encode tk q c = inr ids ->
  convert_ids_to_tokens tk ids = inr toks ->
  model_call m [ids] [BatchEncoding.token_type_ids ed] = inr o ->
  Torch.flatten (QuestionAnsweringModelOutput.start_logits o) <> [] ->
  Torch.flatten (QuestionAnsweringModelOutput.end_logits o) <> [] ->
  exists g out',
    run q c out = (inr g, out') /\
    tokenizer g = tk /\ model g = m /\ encoded_dict g = ed /\
    input_ids g = ids /\
    token_type_ids g = BatchEncoding.token_type_ids ed /\
    tokens g = toks /\ output g = o.
Proof.
  intros Htk Hm Hed Hids Htoks Ho Hs He.
  rewrite (NotebookFacts.run_until_forward q c _ tk m ed ids toks)
    by assumption.
  rewrite Ho. cbv zeta.
  destruct (TorchFacts.argmax_spec _ Hs) as (i & m1 & Hi & Hm1 & _).
  destruct (TorchFacts.argmax_spec _ He) as (j & m2 & Hj & Hm2 & _).
  rewrite (NotebookFacts.report_ok _ _ m1 m2 i j _ Hm1 Hi Hm2 Hj).
  eexists _, _. split; [reflexivity|]. repeat split.
Qed.

End RunFacts.

(** ** Tokenization *)

(** C4.  For every (question, context) pair the segment mask that
    tokenization produces has the length of the token-id sequence and is one
    run of 0s from index 0, over [[CLS]], the question tokens and the first
    [[SEP]], followed by one run of 1s, over the context tokens and the
    trailing [[SEP]]; neither run is empty and the two lengths sum to the
    length of the sequence. *)
Theorem segment_mask_is_two_runs (tokenizers : string -> option Pretrained.Tokenizer)
    (models : string -> option Pretrained.Scorer)
    (tk : Pretrained.Tokenizer) (q c : string) :
  exists ed zeros ones,
    tokenizer_call (Transformers := Pretrained.library tokenizers models) tk q c
      = inr ed /\
    List.length (BatchEncoding.token_type_ids ed)
      = List.length (BatchEncoding.input_ids ed) /\
    BatchEncoding.token_type_ids ed = repeat 0%Z zeros ++ repeat 1%Z ones /\
    (0 < zeros)%nat /\ (0 < ones)%nat /\
    (zeros + ones = List.length (BatchEncoding.input_ids ed))%nat /\
    firstn zeros (BatchEncoding.input_ids ed)
      = [Pretrained.CLS] ++ Pretrained.wordpiece tk q ++ [Pretrained.SEP] /\
    skipn zeros (BatchEncoding.input_ids ed)
      = Pretrained.wordpiece tk c ++ [Pretrained.SEP].
Proof.
  exists (Pretrained.encode_pair tk q c),
         (2 + List.length (Pretrained.wordpiece tk q))%nat,
         (1 + List.length (Pretrained.wordpiece tk c))%nat.
  simpl BatchEncoding.token_type_ids. simpl BatchEncoding.input_ids.
  split; [reflexivity|].
  split; [apply PretrainedFacts.segment_mask_length|].
  split; [apply PretrainedFacts.segment_mask_runs|].
  split; [lia|]. split; [lia|].
  split; [rewrite PretrainedFacts.build_inputs_length; lia|].
  apply PretrainedFacts.build_inputs_split.
Qed.

(** C8.  The forward pass pairs the token ids of
    [tokenizer.encode(question, answer_text)] with the segment mask of the
    earlier [tokenizer(question, answer_text)].  For every library, a run
    that returns has called the model on the ids that [tokenizer.encode]
    returned and on the [token_type_ids] of the dictionary; the two tensors
    have the same length when the two API paths return the same ids (and
    the dictionary is aligned), and nothing in the cells makes them so
    otherwise: with a tokenizer whose two paths differ, the model receives
    the ids of [tokenizer.encode] beside a segment mask of another
    length. *)
Theorem forward_pairs_encode_ids_with_dict_mask :
  (forall (T : Transformers) (q c : string) (out out' : list Line)
          (g : Globals),
      run q c out = (inr g, out') ->
      tokenizer_encode (tokenizer g) q c = inr (input_ids g) /\
      tokenizer_call (tokenizer g) q c = inr (encoded_dict g) /\
      token_type_ids g = BatchEncoding.token_type_ids (encoded_dict g) /\
      model_call (model g) [input_ids g] [token_type_ids g]
        = inr (output g) /\
      (input_ids g = BatchEncoding.input_ids (encoded_dict g) ->
       List.length (BatchEncoding.token_type_ids (encoded_dict g))
       = List.length (BatchEncoding.input_ids (encoded_dict g)) ->
       List.length (input_ids g) = List.length (token_type_ids g))) /\
  (exists (g : Globals (T := DivergingPaths.lib)) (out' : list Line),
      run (T := DivergingPaths.lib) question answer_text [] = (inr g, out') /\
      List.length (BatchEncoding.token_type_ids (encoded_dict g))
      = List.length (BatchEncoding.input_ids (encoded_dict g)) /\
      input_ids g = DivergingPaths.encoded_ids /\
      input_ids g <> BatchEncoding.input_ids (encoded_dict g) /\
      model_call (Transformers := DivergingPaths.lib) (model g)
        [DivergingPaths.encoded_ids]
        [BatchEncoding.token_type_ids DivergingPaths.dict]
        = inr (output g) /\
      List.length (input_ids g) <> List.length (token_type_ids g)).
Proof.
  split.
  - intros T q c out out' g Hrun.
    destruct (NotebookFacts.run_inv q c out out' g Hrun)
      as (_ & _ & Hed & Hids & Htt & _ & _ & Hcall & _).
    repeat (split; [assumption|]).
    intros Hsame Haligned. rewrite Htt, Hsame. symmetry. exact Haligned.
  - eexists _, _. split; [vm_compute; reflexivity|].
    simpl. repeat split; try reflexivity; try discriminate.
Qed.

(** On the replayed library both paths return the 70 recorded ids, and the
    model receives 70 ids beside 70 segment markers. *)
Lemma forward_pairs_encode_ids_with_dict_mask_witness :
  exists g out,
    notebook (T := Recorded.lib) [] = (inr g, out) /\
    input_ids g = Sample.input_ids /\
    tokenizer_encode (tokenizer g) question answer_text
      = inr (input_ids g) /\
    model_call (model g) [input_ids g] [token_type_ids g] = inr (output g) /\
    List.length (input_ids g) = List.length (token_type_ids g).
Proof.
  destruct forward_pairs_encode_ids_with_dict_mask as (Hrun & _).
  destruct SampleFacts.recorded_run as (g & out & H & Hed & Hids & _).
  destruct (Hrun Recorded.lib question answer_text [] out g H)
    as (Henc & _ & _ & Hcall & Hlen).
  exists g, out. repeat (split; [assumption|]).
  apply Hlen; rewrite Hed; [rewrite Hids|]; reflexivity.
Defined.

(** ** The forward pass *)

(** C5.  For every encoded input the start logits and the end logits that
    the forward pass returns have, row by row, the length of the token-id
    sequence fed to the model; the pass returns for every batch whose rows
    have at most 512 tokens, and raises the library's error otherwise. *)
Theorem forward_logits_are_aligned (m : Pretrained.Scorer)
    (ids segs : Tensor Z) :
  (forall out,
      Pretrained.forward m ids segs = inr out ->
      map (@List.length Q) (QuestionAnsweringModelOutput.start_logits out)
        = map (@List.length Z) ids /\
      map (@List.length Q) (QuestionAnsweringModelOutput.end_logits out)
        = map (@List.length Z) ids) /\
  (Forall (fun row => List.length row <= Pretrained.max_position_count)%nat
          ids ->
   exists out, Pretrained.forward m ids segs = inr out) /\
  (Exists (fun row => Pretrained.max_position_count < List.length row)%nat
          ids ->
   Pretrained.forward m ids segs = inl Pretrained.too_long).
Proof.
  unfold Pretrained.forward. split; [|split].
  - intros out.
    destruct (Pretrained.forward_rows m 0 ids segs) as [x|rows] eqn:Hrows;
      [discriminate|].
    intros H. injection H as <-. simpl.
    rewrite !map_map.
    rewrite <- (PretrainedFacts.forward_rows_lengths m ids segs 0 rows Hrows).
    split; apply map_ext; intros r; apply length_map.
  - intros Hall.
    destruct (PretrainedFacts.forward_rows_total m ids segs Hall 0)
      as [rows ->].
    eauto.
  - intros Hex.
    now rewrite (PretrainedFacts.forward_rows_too_long m ids segs Hex 0).
Qed.

(** The recorded input has 70 tokens; the replayed model returns 70 start
    logits and 70 end logits for it. *)
Lemma forward_logits_are_aligned_witness :
  exists out,
    Pretrained.forward Recorded.scorer [Sample.input_ids]
                       [Sample.token_type_ids] = inr out /\
    map (@List.length Q) (QuestionAnsweringModelOutput.start_logits out)
      = [70%nat] /\
    map (@List.length Q) (QuestionAnsweringModelOutput.end_logits out)
      = [70%nat].
Proof.
  destruct (forward_logits_are_aligned Recorded.scorer [Sample.input_ids]
              [Sample.token_type_ids]) as (Hlen & Htotal & _).
  destruct Htotal as [out Hout].
  { constructor; [apply Nat.leb_le; vm_compute; reflexivity | constructor]. }
  exists out. split; [exact Hout|].
  destruct (Hlen out Hout) as [Hs He]. split; assumption.
Defined.

(** C10.  For every tensor of logits with an element, argmax returns an
    index below the number of elements.  The encoding of every pair holds
    [[CLS]] and two [[SEP]], so it is not empty; whenever the forward pass
    returns for it, both logit tensors have an element, both argmax are
    defined, and the start and the end index are positions of the token
    sequence; the forward pass returns when the encoding has at most 512
    tokens. *)
Theorem argmax_indexes_a_token (tk : Pretrained.Tokenizer)
    (m : Pretrained.Scorer) (q c : string) :
  let ids := Pretrained.encode tk q c in
  let segs := BatchEncoding.token_type_ids (Pretrained.encode_pair tk q c) in
  (forall t : Tensor Q,
      Torch.flatten t <> [] ->
      exists i, Torch.argmax t = inr i /\
                (i < List.length (Torch.flatten t))%nat) /\
  ids <> [] /\
  (forall out,
      Pretrained.forward m [ids] [segs] = inr out ->
      Torch.flatten (QuestionAnsweringModelOutput.start_logits out) <> [] /\
      Torch.flatten (QuestionAnsweringModelOutput.end_logits out) <> [] /\
      exists i j ti tj,
        Torch.argmax (QuestionAnsweringModelOutput.start_logits out)
          = inr i /\
        Torch.argmax (QuestionAnsweringModelOutput.end_logits out)
          = inr j /\
        (i < List.length ids)%nat /\ (j < List.length ids)%nat /\
        nth_error (Pretrained.ids_to_tokens tk ids) i = Some ti /\
        nth_error (Pretrained.ids_to_tokens tk ids) j = Some tj) /\
  ((List.length ids <= Pretrained.max_position_count)%nat ->
   exists out, Pretrained.forward m [ids] [segs] = inr out).
Proof.
  intros ids segs.
  assert (Hrange : forall t : Tensor Q,
             Torch.flatten t <> [] ->
             exists i, Torch.argmax t = inr i /\
                       (i < List.length (Torch.flatten t))%nat).
  { intros t Ht. destruct (TorchFacts.argmax_defined t Ht) as [i Hi].
    exists i. split; [assumption | now apply TorchFacts.argmax_in_range]. }
  pose proof (PretrainedFacts.encode_length tk q c) as H3. fold ids in H3.
  split; [exact Hrange|]. split.
  { intros Hnil. rewrite Hnil in H3. simpl in H3. lia. }
  split.
  2:{ intros Hlen. rewrite (PretrainedFacts.forward_one_row m ids segs Hlen).
      eauto. }
  intros out Hout.
  destruct (Nat.le_gt_cases (List.length ids) Pretrained.max_position_count)
    as [Hlen|Hlong].
  2:{ unfold Pretrained.forward in Hout. simpl in Hout.
      rewrite (PretrainedFacts.forward_row_too_long m ids segs Hlong) in Hout.
      discriminate. }
  rewrite (PretrainedFacts.forward_one_row m ids segs Hlen) in Hout.
  injection Hout as <-. simpl.
  set (scores := map (Pretrained.score m ids segs) (seq 0 (List.length ids))).
  assert (Hscores : List.length scores = List.length ids)
    by (unfold scores; now rewrite length_map, length_seq).
  assert (Hs : Torch.flatten [map fst scores] <> []).
  { rewrite TorchFacts.flatten_one_row. intros Hnil.
    apply (f_equal (@List.length Q)) in Hnil.
    rewrite length_map in Hnil. simpl in Hnil. lia. }
  assert (He : Torch.flatten [map snd scores] <> []).
  { rewrite TorchFacts.flatten_one_row. intros Hnil.
    apply (f_equal (@List.length Q)) in Hnil.
    rewrite length_map in Hnil. simpl in Hnil. lia. }
  split; [exact Hs|]. split; [exact He|].
  destruct (Hrange _ Hs) as (i & Hi & Hilt).
  destruct (Hrange _ He) as (j & Hj & Hjlt).
  rewrite TorchFacts.flatten_one_row, length_map, Hscores in Hilt, Hjlt.
  destruct (nth_error (Pretrained.ids_to_tokens tk ids) i) as [ti|] eqn:Hti.
  2:{ apply nth_error_None in Hti.
      rewrite PretrainedFacts.ids_to_tokens_length in Hti. lia. }
  destruct (nth_error (Pretrained.ids_to_tokens tk ids) j) as [tj|] eqn:Htj.
  2:{ apply nth_error_None in Htj.
      rewrite PretrainedFacts.ids_to_tokens_length in Htj. lia. }
  exists i, j, ti, tj. repeat split; assumption.
Qed.

(** On the recorded sample the two indices are 23 and 41, the positions of
    the tokens "-" and "340". *)
Lemma argmax_indexes_a_token_witness :
  exists out,
    Pretrained.forward Recorded.scorer
      [Pretrained.encode Recorded.tokenizer question answer_text]
      [BatchEncoding.token_type_ids
         (Pretrained.encode_pair Recorded.tokenizer question answer_text)]
      = inr out /\
    Torch.argmax (QuestionAnsweringModelOutput.start_logits out) = inr 23%nat /\
    Torch.argmax (QuestionAnsweringModelOutput.end_logits out) = inr 41%nat /\
    nth_error (Pretrained.ids_to_tokens Recorded.tokenizer
                 (Pretrained.encode Recorded.tokenizer question answer_text))
              23 = Some "-" /\
    nth_error (Pretrained.ids_to_tokens Recorded.tokenizer
                 (Pretrained.encode Recorded.tokenizer question answer_text))
              41 = Some "340".
Proof.
  destruct (argmax_indexes_a_token Recorded.tokenizer Recorded.scorer
              question answer_text)
    as (_ & _ & Hidx & Hret).
  destruct Hret as [out Hout].
  { apply Nat.leb_le. vm_compute. reflexivity. }
  exists out. split; [exact Hout|].
  destruct (Hidx out Hout) as (_ & _ & i & j & ti & tj & Hi & Hj & _ & _ & Hti & Htj).
  assert (Hout' := Hout). vm_compute in Hout'. injection Hout' as <-.
  assert (i = 23%nat) as -> by (vm_compute in Hi; congruence).
  assert (j = 41%nat) as -> by (vm_compute in Hj; congruence).
  repeat split; try assumption; vm_compute; reflexivity.
Defined.

(** ** Input length *)

(** C7.  The notebook does not compare the length of the encoded sequence
    with the model's maximum position count and has no error branch of its
    own.  Every exception a run ends with was returned by a library call.
    Once the tokenizer calls have returned, whatever the length of [ids],
    the model is called on [ids]: if that call raises, the run ends with
    that exception; if it returns logits with an element, the run returns
    with these ids and that output. *)
Theorem run_has_no_length_check (T : Transformers) (q c : string)
    (out : list Line) :
  (forall x, fst (run q c out) = inl x -> library_raises q c x) /\
  (forall tk m ed ids toks,
      BertTokenizer_from_pretrained BASE_MODEL = inr tk ->
      BertForQuestionAnswering_from_pretrained BASE_MODEL = inr m ->
      tokenizer_call tk q c = inr ed ->
      tokenizer_encode tk q c = inr ids ->
      convert_ids_to_tokens tk ids = inr toks ->
      (forall x,
          model_call m [ids] [BatchEncoding.token_type_ids ed] = inl x ->
          run q c out = (inl x, out ++ token_lines ids toks)) /\
      (forall o,
          model_call m [ids] [BatchEncoding.token_type_ids ed] = inr o ->
          Torch.flatten (QuestionAnsweringModelOutput.start_logits o) <> [] ->
          Torch.flatten (QuestionAnsweringModelOutput.end_logits o) <> [] ->
          exists g out',
            run q c out = (inr g, out') /\
            input_ids g = ids /\
            token_type_ids g = BatchEncoding.token_type_ids ed /\
            output g = o)).
Proof.
  split; [intros x; apply run_raises_from_library|].
  intros tk m ed ids toks Htk Hm Hed Hids Htoks. split.
  - intros x Hx.
    rewrite (NotebookFacts.run_until_forward q c _ tk m ed ids toks)
      by assumption.
    now rewrite Hx.
  - intros o Ho Hs He.
    destruct (run_ok q c out tk m ed ids toks o Htk Hm Hed Hids Htoks Ho Hs He)
      as (g & out' & Hrun & _ & _ & _ & Hi & Ht & _ & Hout).
    exists g, out'. repeat split; assumption.
Qed.

(** A pair of 603 tokens reaches a model that scores inputs of any length,
    and the run returns with all 603 ids. *)
Lemma run_has_no_length_check_witness :
  exists g out',
    run (T := LongInput.lib) question answer_text [] = (inr g, out') /\
    List.length (input_ids g) = 603%nat /\
    (Pretrained.max_position_count <? List.length (input_ids g))%nat = true.
Proof.
  destruct (run_has_no_length_check LongInput.lib question answer_text [])
    as (_ & Hflow).
  destruct (Hflow LongInput.tokenizer tt
              (Pretrained.encode_pair LongInput.tokenizer question answer_text)
              (Pretrained.encode LongInput.tokenizer question answer_text)
              (Pretrained.ids_to_tokens LongInput.tokenizer
                 (Pretrained.encode LongInput.tokenizer question answer_text))
              eq_refl eq_refl eq_refl eq_refl eq_refl) as (_ & Hret).
  destruct (Hret _ eq_refl) as (g & out' & Hrun & Hids & _).
  - vm_compute. discriminate.
  - vm_compute. discriminate.
  - exists g, out'. split; [exact Hrun|]. rewrite Hids.
    split; vm_compute; reflexivity.
Defined.

(** With the model of the specification the same pair ends in the error of
    the library's forward pass, after the token lines were printed. *)
Lemma long_input_raises_in_forward :
  let L := Pretrained.library (fun _ => Some LongInput.tokenizer)
                              (fun _ => Some Recorded.scorer) in
  exists out',
    run (T := L) question answer_text [] = (inl Pretrained.too_long, out') /\
    List.length out' = 604%nat.
Proof. eexists. split; vm_compute; reflexivity. Qed.

(** ** The attention mask *)

(** The attention mask is bound from [encoded_dict] and is no argument of
    the model call: the call receives the ids and the segment mask only. *)
Lemma attention_mask_is_not_passed (T : Transformers) (q c : string)
    (out out' : list Line) (g : Globals) :
  run q c out = (inr g, out') ->
  attention_mask g = BatchEncoding.attention_mask (encoded_dict g) /\
  model_call (model g) [input_ids g] [token_type_ids g] = inr (output g).
Proof.
  intros Hrun.
  destruct (NotebookFacts.run_inv q c out out' g Hrun)
    as (_ & _ & _ & _ & _ & Ha & _ & Hcall & _).
  split; assumption.
Qed.

(** The recorded attention mask is a 1 for each of the 70 tokens. *)
Lemma sample_attention_mask :
  Sample.attention_mask = repeat 1%Z (List.length Sample.input_ids).
Proof. reflexivity. Qed.

(** * Further properties of the cells *)

(** ** Where a run can stop *)

Section Failures.
Context `{T : Transformers}.

Ltac run_step H := NotebookFacts.py_simpl; rewrite H; NotebookFacts.py_simpl.

(** X1.  A library call that raises ends the run with that exception, and
    the output shows how far the cells got: nothing is printed when either
    load or either tokenizer call raises, and only the line that counts the
    ids when the conversion of the ids to tokens raises.  No cell catches an
    exception, and no later call is needed for the earlier ones to fail. *)
Theorem run_stops_at_first_failure (q c : string) (out : list Line)
    (x : PyExn) :
  (BertTokenizer_from_pretrained BASE_MODEL = inl x ->
   run q c out = (inl x, out)) /\
  (forall tk,
      BertTokenizer_from_pretrained BASE_MODEL = inr tk ->
      BertForQuestionAnswering_from_pretrained BASE_MODEL = inl x ->
      run q c out = (inl x, out)) /\
  (forall tk m,
      BertTokenizer_from_pretrained BASE_MODEL = inr tk ->
      BertForQuestionAnswering_from_pretrained BASE_MODEL = inr m ->
      tokenizer_call tk q c = inl x ->
      run q c out = (inl x, out)) /\
  (forall tk m ed,
      BertTokenizer_from_pretrained BASE_MODEL = inr tk ->
      BertForQuestionAnswering_from_pretrained BASE_MODEL = inr m ->
      tokenizer_call tk q c = inr ed ->
      tokenizer_encode tk q c = inl x ->
      run q c out = (inl x, out)) /\
  (forall tk m ed ids,
      BertTokenizer_from_pretrained BASE_MODEL = inr tk ->
      BertForQuestionAnswering_from_pretrained BASE_MODEL = inr m ->
      tokenizer_call tk q c = inr ed ->
      tokenizer_encode tk q c = inr ids ->
      convert_ids_to_tokens tk ids = inl x ->
      run q c out = (inl x, out ++ [count_line ids])).
Proof.
  repeat split.
  - intros H. unfold run. run_step H. reflexivity.
  - intros tk Htk H. unfold run. run_step Htk. run_step H. reflexivity.
  - intros tk m Htk Hm H. unfold run. run_step Htk. run_step Hm.
    run_step H. reflexivity.
  - intros tk m ed Htk Hm Hed H. unfold run. run_step Htk. run_step Hm.
    run_step Hed. run_step H. reflexivity.
  - intros tk m ed ids Htk Hm Hed Hids H. unfold run. run_step Htk.
    run_step Hm. run_step Hed. run_step Hids. run_step H. reflexivity.
Qed.

(** X2.  A run returns exactly when both loads, both tokenizer calls, the
    conversion to tokens and the model call return and both logit tensors
    have an element. *)
Theorem run_returns_iff (q c : string) (out : list Line) :
  (exists g out', run q c out = (inr g, out')) <->
  (exists tk m ed ids toks o,
      BertTokenizer_from_pretrained BASE_MODEL = inr tk /\
      BertForQuestionAnswering_from_pretrained BASE_MODEL = inr m /\
      tokenizer_call tk q c = inr ed /\
      tokenizer_encode tk q c = inr ids /\
      convert_ids_to_tokens tk ids = inr toks /\
      model_call m [ids] [BatchEncoding.token_type_ids ed] = inr o /\
      Torch.flatten (QuestionAnsweringModelOutput.start_logits o) <> [] /\
      Torch.flatten (QuestionAnsweringModelOutput.end_logits o) <> []).
Proof.
  split.
  - intros (g & out' & Hrun).
    destruct (NotebookFacts.run_inv q c out out' g Hrun)
      as (Htk & Hm & Hed & Hids & Htt & _ & Htoks & Hcall & Hs & He
          & m1 & i & m2 & j & _ & Hi & _ & Hj & _).
    exists (tokenizer g), (model g), (encoded_dict g), (input_ids g),
           (tokens g), (output g).
    rewrite <- Htt. repeat (split; [assumption|]).
    rewrite <- Hs, <- He.
    split; eapply TorchFacts.argmax_ok_nonempty; eassumption.
  - intros (tk & m & ed & ids & toks & o & Htk & Hm & Hed & Hids & Htoks
            & Ho & Hs & He).
    destruct (run_ok q c out tk m ed ids toks o Htk Hm Hed Hids Htoks Ho Hs He)
      as (g & out' & Hrun & _).
    eauto.
Qed.

End Failures.

(** The model name is unknown to the hub: the run stops at the first load
    and prints nothing. *)
Lemma run_stops_at_first_failure_witness :
  let L := Pretrained.library (fun _ => None) (fun _ => None) in
  run (T := L) question answer_text [] = (inl (Pretrained.not_found BASE_MODEL), []).
Proof.
  intros L.
  destruct (run_stops_at_first_failure (T := L) question answer_text []
              (Pretrained.not_found BASE_MODEL)) as (H & _).
  apply H. reflexivity.
Defined.

(** ** The reporting cell *)

(** X3.  On a start tensor without elements the reporting cell raises at
    [start_logits.max()], after the header, the tensor and the blank line;
    on an end tensor without elements (the start tensor having one) it
    raises at [end_logits.max()], after the start value and position and
    the header of the end logits were printed.  Nothing is printed after
    the failing reduction. *)
Theorem report_on_empty_logits (s e : Tensor Q) (out : list Line) :
  (Torch.flatten s = [] ->
   report s e out = (inl Torch.empty_reduction, out ++ start_header s)) /\
  (Torch.flatten s <> [] -> Torch.flatten e = [] ->
   exists m1 i,
     Torch.max s = inr m1 /\ Torch.argmax s = inr i /\
     report s e out
     = (inl Torch.empty_reduction, out ++ end_header s e m1 i)).
Proof.
  split.
  - intros Hs. destruct (TorchFacts.argmax_empty s Hs) as [_ Hm].
    unfold report. NotebookFacts.py_simpl. rewrite Hm. reflexivity.
  - intros Hs He.
    destruct (TorchFacts.argmax_spec s Hs) as (i & m1 & Hi & Hm1 & _).
    destruct (TorchFacts.argmax_empty e He) as [_ Hm].
    exists m1, i. repeat (split; [assumption|]).
    unfold report. NotebookFacts.py_simpl. rewrite Hm1.
    NotebookFacts.py_simpl. rewrite Hi. NotebookFacts.py_simpl.
    rewrite Hm. reflexivity.
Qed.

Lemma report_on_empty_logits_witness :
  report [[]] [[1]]%Q [] = (inl Torch.empty_reduction, start_header [[]]) /\
  exists m1 i,
    report [[1; 3; 2]]%Q [] []
    = (inl Torch.empty_reduction, end_header [[1; 3; 2]]%Q [] m1 i).
Proof.
  split.
  - destruct (report_on_empty_logits [[]] [[1]]%Q []) as (H & _).
    apply H. reflexivity.
  - destruct (report_on_empty_logits [[1; 3; 2]]%Q [] []) as (_ & H).
    destruct H as (m1 & i & _ & _ & Hr); [discriminate | reflexivity |].
    exists m1, i. exact Hr.
Defined.

(** X4.  When the reporting cell returns, the value it printed as the
    largest start logit is the element of the flattened start tensor at the
    position it printed, and no element is larger; the same holds for the
    end logits. *)
Theorem report_value_is_at_position (s e : Tensor Q) (out out' : list Line) :
  report s e out = (inr tt, out') ->
  exists m1 i m2 j,
    out' = out ++ report_lines s e m1 i m2 j /\
    nth_error (Torch.flatten s) i = Some m1 /\
    Forall (fun x => x <= m1)%Q (Torch.flatten s) /\
    nth_error (Torch.flatten e) j = Some m2 /\
    Forall (fun x => x <= m2)%Q (Torch.flatten e).
Proof.
  intros Hr.
  destruct (NotebookFacts.report_inv s e out out' Hr)
    as (m1 & i & m2 & j & Hm1 & Hi & Hm2 & Hj & Hout).
  exists m1, i, m2, j. split; [assumption|].
  destruct (TorchFacts.argmax_spec s (TorchFacts.argmax_ok_nonempty s i Hi))
    as (i' & m1' & Hi' & Hm1' & Hn1 & Ha1 & _).
  destruct (TorchFacts.argmax_spec e (TorchFacts.argmax_ok_nonempty e j Hj))
    as (j' & m2' & Hj' & Hm2' & Hn2 & Ha2 & _).
  assert (i' = i) by congruence. assert (m1' = m1) by congruence.
  assert (j' = j) by congruence. assert (m2' = m2) by congruence.
  subst. repeat split; assumption.
Qed.

Lemma report_value_is_at_position_witness :
  exists m1 i m2 j,
    report_lines Sample.start_logits Sample.end_logits
      (4340 # 10000) 23 (3851 # 10000) 41
    = [] ++ report_lines Sample.start_logits Sample.end_logits m1 i m2 j /\
    nth_error (Torch.flatten Sample.start_logits) i = Some m1 /\
    Forall (fun x => x <= m1)%Q (Torch.flatten Sample.start_logits) /\
    nth_error (Torch.flatten Sample.end_logits) j = Some m2 /\
    Forall (fun x => x <= m2)%Q (Torch.flatten Sample.end_logits).
Proof.
  apply (report_value_is_at_position Sample.start_logits Sample.end_logits []).
  vm_compute. reflexivity.
Defined.

(** ** The run as a cascade of library calls *)

(** The run, call by call: each library call either ends the run or hands
    its value to the next cell. *)
Lemma run_cases `{T : Transformers} (q c : string) (out : list Line) :
  run q c out =
  match BertTokenizer_from_pretrained BASE_MODEL with
  | inl x => (inl x, out)
  | inr tk =>
  match BertForQuestionAnswering_from_pretrained BASE_MODEL with
  | inl x => (inl x, out)
  | inr m =>
  match tokenizer_call tk q c with
  | inl x => (inl x, out)
  | inr ed =>
  match tokenizer_encode tk q c with
  | inl x => (inl x, out)
  | inr ids =>
  match convert_ids_to_tokens tk ids with
  | inl x => (inl x, out ++ [count_line ids])
  | inr toks =>
  match model_call m [ids] [BatchEncoding.token_type_ids ed] with
  | inl x => (inl x, out ++ token_lines ids toks)
  | inr o =>
      let s := QuestionAnsweringModelOutput.start_logits o in
      let e := QuestionAnsweringModelOutput.end_logits o in
      match report s e (out ++ token_lines ids toks) with
      | (inl x, out') => (inl x, out')
      | (inr _, out') =>
          (inr (mkGlobals _ tk m ed ids (BatchEncoding.token_type_ids ed)
                  (BatchEncoding.attention_mask ed) toks o s e), out')
      end
  end end end end end end.
Proof.
  destruct (BertTokenizer_from_pretrained BASE_MODEL) as [x|tk] eqn:Htk.
  { unfold run. NotebookFacts.py_simpl. rewrite Htk. reflexivity. }
  destruct (BertForQuestionAnswering_from_pretrained BASE_MODEL)
    as [x|m] eqn:Hm.
  { unfold run. NotebookFacts.py_simpl. rewrite Htk.
    NotebookFacts.py_simpl. rewrite Hm. reflexivity. }
  destruct (tokenizer_call tk q c) as [x|ed] eqn:Hed.
  { unfold run. NotebookFacts.py_simpl. rewrite Htk.
    NotebookFacts.py_simpl. rewrite Hm. NotebookFacts.py_simpl.
    rewrite Hed. reflexivity. }
  destruct (tokenizer_encode tk q c) as [x|ids] eqn:Hids.
  { unfold run. NotebookFacts.py_simpl. rewrite Htk.
    NotebookFacts.py_simpl. rewrite Hm. NotebookFacts.py_simpl.
    rewrite Hed. NotebookFacts.py_simpl. rewrite Hids. reflexivity. }
  destruct (convert_ids_to_tokens tk ids) as [x|toks] eqn:Htoks.
  { unfold run. NotebookFacts.py_simpl. rewrite Htk.
    NotebookFacts.py_simpl. rewrite Hm. NotebookFacts.py_simpl.
    rewrite Hed. NotebookFacts.py_simpl. rewrite Hids.
    NotebookFacts.py_simpl. rewrite Htoks. reflexivity. }
  apply NotebookFacts.run_until_forward; assumption.
Qed.

Lemma nth_error_combine {A B} (l1 : list A) (l2 : list B) (k : nat) a b :
  nth_error l1 k = Some a -> nth_error l2 k = Some b ->
  nth_error (combine l1 l2) k = Some (a, b).
Proof.
  revert l2 k. induction l1 as [|a1 l1 IH]; intros [|b1 l2] [|k]; simpl;
    try discriminate.
  - intros H1 H2. congruence.
  - apply IH.
Qed.

(** X5.  When a run returns, it has printed the count of the ids, then one
    line per pair of the zip of ids and tokens, then the eleven lines of the
    reporting cell: the listing has as many lines as the shorter of the two
    sequences, and its k-th line shows the k-th id with the k-th token.  Ids
    beyond the last token are not listed. *)
Theorem run_lists_zipped_tokens `{T : Transformers} (q c : string)
    (out out' : list Line) (g : Globals) :
  run q c out = (inr g, out') ->
  List.length out'
  = (List.length out + 1
     + Nat.min (List.length (input_ids g)) (List.length (tokens g))
     + 11)%nat /\
  nth_error out' (List.length out) = Some (count_line (input_ids g)) /\
  forall k id tok,
    nth_error (input_ids g) k = Some id ->
    nth_error (tokens g) k = Some tok ->
    nth_error out' (List.length out + 1 + k)
    = Some [Int id; Lit " >> "; Str tok].
Proof.
  intros Hrun.
  destruct (NotebookFacts.run_inv q c out out' g Hrun)
    as (_ & _ & _ & _ & _ & _ & _ & _ & _ & _ & m1 & i & m2 & j
        & _ & _ & _ & _ & ->).
  unfold token_lines. fold (count_line (input_ids g)).
  split; [|split].
  - rewrite !length_app. simpl. rewrite length_map, length_combine. lia.
  - rewrite nth_error_app2 by lia. rewrite Nat.sub_diag. reflexivity.
  - intros k id tok Hid Htok.
    rewrite nth_error_app2 by lia.
    replace (List.length out + 1 + k - List.length out)%nat with (S k) by lia.
    simpl.
    assert (Hk : (k < List.length (combine (input_ids g) (tokens g)))%nat).
    { apply nth_error_Some.
      rewrite (nth_error_combine _ _ _ _ _ Hid Htok). discriminate. }
    rewrite nth_error_app1 by (rewrite length_map; exact Hk).
    rewrite nth_error_map, (nth_error_combine _ _ _ _ _ Hid Htok).
    reflexivity.
Qed.

(** On the replayed library: 82 lines, and line 24 shows the id and the
    token at position 23. *)
Lemma run_lists_zipped_tokens_witness :
  exists g out',
    notebook (T := Recorded.lib) [] = (inr g, out') /\
    List.length out' = 82%nat /\
    nth_error out' 24 = Some [Int 1011; Lit " >> "; Str "-"].
Proof.
  destruct SampleFacts.recorded_run
    as (g & out' & Hrun & _ & Hids & Htoks & _ & _ & _).
  destruct (run_lists_zipped_tokens question answer_text [] out' g Hrun)
    as (Hlen & _ & Hline).
  exists g, out'. split; [exact Hrun|]. split.
  - rewrite Hlen, Hids, Htoks. reflexivity.
  - apply (Hline 23%nat); [rewrite Hids | rewrite Htoks]; reflexivity.
Defined.

(** ** What a run depends on *)

(** X6.  Of the dictionary that [tokenizer(question, answer_text)] returns,
    a run uses the segment mask only: its [input_ids] are rebound by
    [tokenizer.encode] before any use and its [attention_mask] is never
    read.  Two libraries whose dictionaries agree on [token_type_ids] make
    the run print the same lines, end the same way and hold the same ids,
    segment mask, tokens and model output. *)
Theorem run_reads_only_the_segment_mask (T : Transformers)
    (f : BatchEncoding.t -> BatchEncoding.t) (q c : string)
    (out : list Line) :
  (forall ed,
      BatchEncoding.token_type_ids (f ed) = BatchEncoding.token_type_ids ed) ->
  snd (run (T := override_dict T f) q c out) = snd (run (T := T) q c out) /\
  outcome (fst (run (T := override_dict T f) q c out))
  = outcome (fst (run (T := T) q c out)).
Proof.
  intros Hf. rewrite !run_cases. simpl.
  destruct (BertTokenizer_from_pretrained BASE_MODEL) as [x|tk];
    [split; reflexivity|].
  destruct (BertForQuestionAnswering_from_pretrained BASE_MODEL) as [x|m];
    [split; reflexivity|].
  destruct (tokenizer_call tk q c) as [x|ed]; [split; reflexivity|].
  destruct (tokenizer_encode tk q c) as [x|ids]; [split; reflexivity|].
  destruct (convert_ids_to_tokens tk ids) as [x|toks]; [split; reflexivity|].
  rewrite Hf.
  destruct (model_call m [ids] [BatchEncoding.token_type_ids ed]) as [x|o];
    [split; reflexivity|].
  destruct (report _ _ _) as [[x|u] out1]; [split; reflexivity|].
  split; reflexivity.
Qed.

(** The replayed library with the ids of the dictionary emptied and its
    attention mask set to zeros prints what the replayed library prints. *)
Lemma run_reads_only_the_segment_mask_witness :
  let f := fun ed =>
             BatchEncoding.mk [] (BatchEncoding.token_type_ids ed)
               (map (fun _ => 0%Z) (BatchEncoding.attention_mask ed)) in
  snd (notebook (T := override_dict Recorded.lib f) [])
  = snd (notebook (T := Recorded.lib) []) /\
  outcome (fst (notebook (T := override_dict Recorded.lib f) []))
  = outcome (fst (notebook (T := Recorded.lib) [])).
Proof.
  intros f.
  apply (run_reads_only_the_segment_mask Recorded.lib f question answer_text []).
  intros ed. reflexivity.
Defined.

(** ** The reductions *)

Module ReductionFacts.
Import Torch.

Lemma scan_max_map (f : Q -> Q) :
  (forall x y, Qcompare (f x) (f y) = Qcompare x y) ->
  forall l best besti i,
    scan_max (f best) besti i (map f l)
    = (f (fst (scan_max best besti i l)), snd (scan_max best besti i l)).
Proof.
  intros Hf. induction l as [|x l IH]; intros best besti i; simpl.
  - reflexivity.
  - rewrite Hf. destruct (Qcompare x best); apply IH.
Qed.

Lemma flatten_map {A B} (f : A -> B) (t : Tensor A) :
  flatten (map (map f) t) = map f (flatten t).
Proof. unfold flatten. symmetry. apply concat_map. Qed.

End ReductionFacts.

(** Applying to every logit a map that keeps all comparisons leaves every
    argmax where it is and turns every max into its image. *)
Lemma reductions_under_order_preserving_map (f : Q -> Q) (t : Tensor Q) :
  (forall x y, Qcompare (f x) (f y) = Qcompare x y) ->
  Torch.argmax (map (map f) t) = Torch.argmax t /\
  Torch.max (map (map f) t)
  = match Torch.max t with inl x => inl x | inr m => inr (f m) end.
Proof.
  intros Hf. unfold Torch.argmax, Torch.max.
  rewrite ReductionFacts.flatten_map.
  destruct (Torch.flatten t) as [|x rest]; simpl; [split; reflexivity|].
  rewrite (ReductionFacts.scan_max_map f Hf). split; reflexivity.
Qed.

(** X8.  The positions that the reporting cell prints depend on the order
    of the logits only: when the cell returns on two tensors, it also
    returns on the tensors obtained by applying to every logit a map on the
    rationals that keeps all comparisons, and it prints the same two
    positions, beside the images of the two largest values. *)
Theorem report_positions_keep_under_order_preserving_map (f : Q -> Q)
    (s e : Tensor Q) (out out' : list Line) :
  (forall x y, Qcompare (f x) (f y) = Qcompare x y) ->
  report s e out = (inr tt, out') ->
  exists m1 i m2 j,
    out' = out ++ report_lines s e m1 i m2 j /\
    report (map (map f) s) (map (map f) e) out
    = (inr tt,
       out ++ report_lines (map (map f) s) (map (map f) e)
                (f m1) i (f m2) j).
Proof.
  intros Hf Hr.
  destruct (NotebookFacts.report_inv s e out out' Hr)
    as (m1 & i & m2 & j & Hm1 & Hi & Hm2 & Hj & Hout).
  exists m1, i, m2, j. split; [assumption|].
  destruct (reductions_under_order_preserving_map f s Hf) as [Hai Ham].
  destruct (reductions_under_order_preserving_map f e Hf) as [Haj Hbm].
  apply NotebookFacts.report_ok.
  - now rewrite Ham, Hm1.
  - now rewrite Hai.
  - now rewrite Hbm, Hm2.
  - now rewrite Haj.
Qed.

(** Doubling every logit keeps all comparisons. *)
Lemma double_keeps_order (x y : Q) :
  Qcompare (2 * x) (2 * y) = Qcompare x y.
Proof.
  destruct (Qcompare_spec x y) as [H|H|H].
  - apply (proj1 (Qeq_alt _ _)). now rewrite H.
  - apply (proj1 (Qlt_alt _ _)). lra.
  - apply (proj1 (Qgt_alt _ _)). lra.
Qed.

(** Start logits [1, 3, 2] and end logits [5, 4]: positions 1 and 0, also
    after doubling. *)
Lemma report_positions_keep_under_order_preserving_map_witness :
  exists m1 i m2 j,
    report_lines [[1; 3; 2]]%Q [[5; 4]]%Q 3 1 5 0
    = [] ++ report_lines [[1; 3; 2]]%Q [[5; 4]]%Q m1 i m2 j /\
    report (map (map (Qmult 2)) [[1; 3; 2]]%Q)
           (map (map (Qmult 2)) [[5; 4]]%Q) []
    = (inr tt,
       [] ++ report_lines (map (map (Qmult 2)) [[1; 3; 2]]%Q)
               (map (map (Qmult 2)) [[5; 4]]%Q) (2 * m1) i (2 * m2) j).
Proof.
  apply (report_positions_keep_under_order_preserving_map (Qmult 2)
           [[1; 3; 2]]%Q [[5; 4]]%Q []).
  - exact double_keeps_order.
  - reflexivity.
Defined.

(** X9.  [argmax] returns [i] exactly when [i] is the first position of the
    flattened tensor that holds its maximum: the value at [i] bounds every
    element and is strictly larger than every element before [i].  When
    several positions hold the maximum, the first one is returned. *)
Theorem argmax_is_first_maximum (t : Tensor Q) (i : nat) :
  Torch.argmax t = inr i <->
  is_argmax (Torch.flatten t) i /\ is_first (Torch.flatten t) i.
Proof.
  split.
  - intros Hi.
    destruct (TorchFacts.argmax_spec t (TorchFacts.argmax_ok_nonempty t i Hi))
      as (i' & m & Hi' & _ & Hn & Hall & Hfirst).
    assert (i' = i) by congruence. subst i'.
    split; [exists m; split; assumption | assumption].
  - intros [(m & Hn & Hall) Hfirst].
    assert (Hne : Torch.flatten t <> []).
    { intros Hnil. rewrite Hnil in Hn. destruct i; discriminate. }
    destruct (TorchFacts.argmax_spec t Hne)
      as (i' & m' & Hi' & _ & Hn' & Hall' & Hfirst').
    rewrite Hi'. f_equal.
    rewrite Forall_forall in Hall, Hall'.
    destruct (Nat.lt_trichotomy i' i) as [Hlt|[Heq|Hgt]]; [|assumption|].
    + pose proof (Hfirst i' m' m Hlt Hn' Hn) as H1.
      pose proof (Hall' m (nth_error_In _ _ Hn)) as H2.
      exfalso. apply (Qlt_not_le _ _ H1 H2).
    + pose proof (Hfirst' i m m' Hgt Hn Hn') as H1.
      pose proof (Hall m' (nth_error_In _ _ Hn')) as H2.
      exfalso. apply (Qlt_not_le _ _ H1 H2).
Qed.
